(** * OIDC callback of the Outline OIDC plugin

    A shallow embedding of the verify callback that [createOIDCRouter]
    (plugins/oidc/server/auth/oidcRouter.ts) registers with passport, and the
    properties of claim reconciliation and tenant/provider resolution that the
    specification states about it.

    The callback is an [async] function whose body is one [try]/[catch].  It is
    embedded in a writer/exception monad: a computation yields the events it
    emitted (userinfo request, log lines, store queries, the provisioning
    call) together with either a thrown error or a value.  Everything the
    callback imports from elsewhere (HTTP transport, JWT decoding, the store,
    e-mail and URL helpers, the account provisioner, configuration) is a field
    of the record [Env]. *)

From Stdlib Require Import ZArith Ascii String.
From stdpp Require Import base strings list gmap.

Local Open Scope string_scope.

(** ** JavaScript values *)

(** The values a parsed JSON document or a decoded token payload can hold,
    plus [undefined] for a member that is not there and the built-in method
    that a read can find on the prototype of a string.  Numbers carry an
    integer: the callback only ever tests them for truthiness. *)
#[warnings="-register-all"]
Inductive JsVal : Type :=
| JUndefined
| JNull
| JBool (b : bool)
| JNum (n : Z)
| JStr (s : string)
| JArr (items : list JsVal)
| JObj (members : gmap string JsVal)
| JFun (fname : string).

(** [!v] is [negb (truthy v)]. *)
Definition truthy (v : JsVal) : bool :=
  match v with
  | JUndefined | JNull => false
  | JBool b => b
  | JNum n => negb (n =? 0)%Z
  | JStr s => negb (String.eqb s "")
  | JArr _ | JObj _ | JFun _ => true
  end.

(** [v == null], the test behind [??] and [?.]. *)
Definition nullish (v : JsVal) : bool :=
  match v with
  | JUndefined | JNull => true
  | _ => false
  end.

Definition typeof (v : JsVal) : string :=
  match v with
  | JUndefined => "undefined"
  | JNull | JArr _ | JObj _ => "object"
  | JBool _ => "boolean"
  | JNum _ => "number"
  | JStr _ => "string"
  | JFun _ => "function"
  end.

(** ** Errors and the computation monad *)

Inductive Exn : Type :=
| AuthenticationError (message : string)
| OIDCMalformedUserInfoError
| TypeError (message : string)
| ExternalError (origin : string).

Inductive Result (A : Type) : Type :=
| Throw (e : Exn)
| Return (a : A).
Arguments Throw {A} e.
Arguments Return {A} a.

Inductive Method : Type := GET | POST.

Inductive LogLevel : Type := Debug | Warn | Error.

Record Team : Type := { team_id : string }.

Record AuthenticationProvider : Type :=
  { name : string; teamId : string; providerId : string }.

(** The [where] object of [AuthenticationProvider.findOne]. *)
Record Where : Type :=
  { where_name : string; where_teamId : string; where_providerId : option string }.

Record TeamDescriptor : Type :=
  { td_teamId : option string; td_name : string; td_domain : string; td_subdomain : string }.

Record UserDescriptor : Type :=
  { ud_name : JsVal; ud_email : JsVal; ud_avatarUrl : JsVal }.

Record ProviderDescriptor : Type :=
  { pd_name : string; pd_providerId : string }.

Record AuthenticationDescriptor : Type :=
  { ad_providerId : JsVal; ad_accessToken : string; ad_refreshToken : string;
    ad_expiresIn : Z; ad_scopes : list string }.

(** The second argument of [accountProvisioner]. *)
Record ProvisionArgs : Type :=
  { pa_team : TeamDescriptor; pa_user : UserDescriptor;
    pa_authenticationProvider : ProviderDescriptor;
    pa_authentication : AuthenticationDescriptor }.

Record AccountProvisionerResult : Type :=
  { user : string; team : string; isNewUser : bool; isNewTeam : bool }.

Inductive Event : Type :=
| EvRequest (method : Method) (endpoint accessToken : string)
| EvLog (level : LogLevel) (message : string)
| EvGetTeam
| EvFindOne (query : Where)
| EvProvision (ip : string) (args : ProvisionArgs).

(** What the callback finally hands to passport's [done]. *)
Inductive DoneCall : Type :=
| DoneErr (err : Exn)
| DoneOk (u : string) (result : AccountProvisionerResult) (client : string).

Definition M (A : Type) : Type := (list Event * Result A)%type.

Definition ret {A} (a : A) : M A := ([], Return a).

Definition bind {A B} (m : M A) (k : A → M B) : M B :=
  match m with
  | (tr, Throw e) => (tr, Throw e)
  | (tr, Return a) => let '(tr', r) := k a in ((tr ++ tr')%list, r)
  end.

Definition throw {A} (e : Exn) : M A := ([], Throw e).

(** A synchronous or awaited call that leaves no event. *)
Definition lift {A} (r : Result A) : M A := ([], r).

(** An awaited call to a collaborator, recorded before its outcome. *)
Definition call {A} (ev : Event) (r : Result A) : M A := ([ev], r).

Definition log (level : LogLevel) (message : string) : M unit :=
  ([EvLog level message], Return tt).

Definition try_catch {A} (body : M A) (handler : Exn → M A) : M A :=
  match body with
  | (tr, Throw e) => let '(tr', r) := handler e in ((tr ++ tr')%list, r)
  | (tr, Return a) => (tr, Return a)
  end.

Declare Scope js_scope.
Delimit Scope js_scope with js.
Notation "x <- m ;; k" := (bind m (λ x, k))
  (at level 100, m at next level, right associativity) : js_scope.
Notation "m ;;; k" := (bind m (λ _, k))
  (at level 100, right associativity) : js_scope.
Local Open Scope js_scope.

(** What [o[k]] finds on a value that is neither [null] nor [undefined]:
    the parsed member of an object; on a string the method [sub], which
    every string inherits from [String.prototype]; on a function its [name];
    [undefined] elsewhere.  This is what JavaScript finds for the member
    names the callback reads, [email], [name], [username], [sub], [id] and
    [picture]: no other of them is on the prototype of an object, an array,
    a string, a number or a boolean.  Other inherited members ([length],
    [constructor], ...) and the indices of arrays and strings are outside
    the model. *)
Definition member (o : JsVal) (k : string) : JsVal :=
  match o with
  | JObj members => default JUndefined (members !! k)
  | JStr _ => if String.eqb k "sub" then JFun "sub" else JUndefined
  | JFun fname => if String.eqb k "name" then JStr fname else JUndefined
  | _ => JUndefined
  end.

(** [o.k] for a fixed member name: a [TypeError] on [null] and [undefined],
    the member elsewhere. *)
Definition prop (o : JsVal) (k : string) : M JsVal :=
  match o with
  | JUndefined =>
      throw (TypeError ("Cannot read properties of undefined (reading '" ++ k ++ "')"))
  | JNull =>
      throw (TypeError ("Cannot read properties of null (reading '" ++ k ++ "')"))
  | _ => ret (member o k)
  end.

(** [a ?? b]: [b] is evaluated only when [a] is [null] or [undefined]. *)
Definition coalesce (a : JsVal) (b : M JsVal) : M JsVal :=
  if nullish a then b else ret a.

(** [if (c) throw e]. *)
Definition throw_if (c : bool) (e : Exn) : M unit :=
  if c then throw e else ret tt.

(** ** The callback's surroundings *)

Record OIDCEndpoints : Type :=
  { authorizationURL : string; tokenURL : string; userInfoURL : string;
    logoutURL : option string; pkce : option bool }.

(** The Koa context of the request: the callback reads [ip] itself and passes
    the context whole to the team and client helpers; [request_state] stands
    for whatever those read from it. *)
Record Context : Type := { ip : string; request_state : string }.

(** The [params] argument of the callback. *)
Record Params : Type := { expires_in : Z; id_token : string }.

(** What the callback imports.  A helper that can throw, or an awaited one
    that can reject, returns a [Result]. *)
Record Env : Type :=
  { (* env and plugin.json *)
    OIDC_USERNAME_CLAIM : string;
    OIDC_SCOPES : string;
    APP_NAME : string;
    config_id : string;
    (* @server/utils/passport *)
    request : Method → string → string → Result JsVal;
    getTeamFromContext : Context → Result (option Team);
    getClientFromContext : Context → Result string;
    (* jsonwebtoken *)
    JWT_decode : string → Result JsVal;
    (* @shared/utils *)
    parseEmail : JsVal → Result string;
    slugifyDomain : string → string;
    isBase64Url : JsVal → Result bool;
    (* AuthenticationProvider.findOne *)
    findOne : Where → Result (option AuthenticationProvider);
    (* new URL(u).hostname *)
    URL_hostname : string → Result string;
    (* lodash/get *)
    get : JsVal → string → JsVal;
    (* @server/commands/accountProvisioner, called with the ip of the fresh
       context and the descriptors *)
    accountProvisioner : string → ProvisionArgs → Result AccountProvisionerResult }.

(** [s.split(sep)] for a one-character separator. *)
Fixpoint split_on (sep : ascii) (s : string) : list string :=
  match s with
  | EmptyString => [EmptyString]
  | String c rest =>
      if Ascii.eqb c sep then EmptyString :: split_on sep rest
      else match split_on sep rest with
           | [] => [String c EmptyString]
           | w :: ws => String c w :: ws
           end
  end.

Definition dquote : string := String "034"%char EmptyString.

(** ** The callback *)

(** Providers that require a POST request to the userinfo endpoint. *)
Definition usePostMethod : list string :=
  ["https://api.dropboxapi.com/2/openid/userinfo"].

(** [list.includes(s)] on strings. *)
Definition includes (l : list string) (s : string) : bool :=
  existsb (String.eqb s) l.

Definition email_missing : Exn :=
  AuthenticationError
    "An email field was not returned in the profile or id_token parameter, but is required.".

Definition name_missing (claim userInfo : string) : Exn :=
  AuthenticationError
    ("Neither a " ++ claim ++ ", " ++ dquote ++ "name" ++ dquote ++ " or "
       ++ dquote ++ "username" ++ dquote
       ++ " was returned in the profile loaded from " ++ userInfo
       ++ ", but at least one is required.").

Definition id_missing (userInfo : string) : Exn :=
  AuthenticationError
    ("A user id was not returned in the profile loaded from " ++ userInfo
       ++ ", searched in " ++ dquote ++ "sub" ++ dquote ++ " and "
       ++ dquote ++ "id" ++ dquote ++ " fields.").

(** The locals of the callback once the checks on name and user id passed. *)
Record Resolved : Type :=
  { r_email : JsVal; r_team : option Team; r_client : string; r_domain : string;
    r_authenticationProvider : option AuthenticationProvider;
    r_providerId : string; r_subdomain : string;
    r_name : JsVal; r_profileId : JsVal }.

Section Callback.
Variable E : Env.
Variable endpoints : OIDCEndpoints.

(** [const scopes = env.OIDC_SCOPES.split(" ")] *)
Definition scopes : list string := split_on " "%char (OIDC_SCOPES E).

Definition userinfoMethod : Method :=
  if includes usePostMethod (userInfoURL endpoints) then POST else GET.

(** [await request(method, endpoints.userInfoURL, accessToken)] *)
Definition fetchProfile (accessToken : string) : M JsVal :=
  call (EvRequest userinfoMethod (userInfoURL endpoints) accessToken)
       (request E userinfoMethod (userInfoURL endpoints) accessToken).

(** The immediately invoked function that decodes [params.id_token]. *)
Definition decodeToken (params : Params) : M JsVal :=
  try_catch
    (decoded <- lift (JWT_decode E (id_token params));;
     if negb (truthy decoded) || negb (String.eqb (typeof decoded) "object")
     then log Warn "Decoded id_token is not a valid object";;; ret (JObj ∅)
     else ret decoded)
    (λ err, log Error "id_token decode threw error: ";;; ret (JObj ∅)).

(** [profile.email ?? token.email ?? null] *)
Definition resolveEmail (profile token : JsVal) : M JsVal :=
  pe <- prop profile "email";;
  e <- coalesce pe (prop token "email");;
  coalesce e (ret JNull).

Definition exactQuery (t : Team) (domain : string) : Where :=
  {| where_name := "oidc"; where_teamId := team_id t;
     where_providerId := Some domain |}.

Definition teamQuery (t : Team) : Where :=
  {| where_name := "oidc"; where_teamId := team_id t;
     where_providerId := None |}.

(** [team ? (await findOne(exact)) ?? (await findOne(any)) : undefined] *)
Definition lookupProvider (tm : option Team) (domain : string)
  : M (option AuthenticationProvider) :=
  match tm with
  | Some t =>
      found <- call (EvFindOne (exactQuery t domain)) (findOne E (exactQuery t domain));;
      match found with
      | Some p => ret (Some p)
      | None => call (EvFindOne (teamQuery t)) (findOne E (teamQuery t))
      end
  | None => ret None
  end.

(** [get(profile, claim) ?? get(token, claim)] *)
Definition resolveUsername (profile token : JsVal) : JsVal :=
  let u := get E profile (OIDC_USERNAME_CLAIM E) in
  if nullish u then get E token (OIDC_USERNAME_CLAIM E) else u.

(** [profile.name || username || profile.username] *)
Definition resolveName (profile username : JsVal) : M JsVal :=
  pn <- prop profile "name";;
  if truthy pn then ret pn
  else if truthy username then ret username
  else prop profile "username".

(** [profile.sub ? profile.sub : profile.id] *)
Definition resolveProfileId (profile : JsVal) : M JsVal :=
  ps <- prop profile "sub";;
  if truthy ps then prop profile "sub" else prop profile "id".

(** From the e-mail fallback to the check of the user id. *)
Definition reconcile (context : Context) (profile token : JsVal) : M Resolved :=
  email <- resolveEmail profile token;;
  throw_if (negb (truthy email)) email_missing;;;
  tm <- call EvGetTeam (getTeamFromContext E context);;
  client <- lift (getClientFromContext E context);;
  domain <- lift (parseEmail E email);;
  authenticationProvider <- lookupProvider tm domain;;
  hostname <- lift (URL_hostname E (authorizationURL endpoints));;
  let providerId :=
    match authenticationProvider with
    | Some p => providerId p
    | None => hostname
    end in
  throw_if (String.eqb domain "") OIDCMalformedUserInfoError;;;
  let subdomain := slugifyDomain E domain in
  let username := resolveUsername profile token in
  nm <- resolveName profile username;;
  profileId <- resolveProfileId profile;;
  throw_if (negb (truthy nm))
    (name_missing (OIDC_USERNAME_CLAIM E) (userInfoURL endpoints));;;
  throw_if (negb (truthy profileId)) (id_missing (userInfoURL endpoints));;;
  ret {| r_email := email; r_team := tm; r_client := client; r_domain := domain;
         r_authenticationProvider := authenticationProvider;
         r_providerId := providerId; r_subdomain := subdomain;
         r_name := nm; r_profileId := profileId |}.

(** The avatar: [profile.picture], or [null] for a Base64 data URL. *)
Definition filterAvatar (profile : JsVal) : M JsVal :=
  picture <- prop profile "picture";;
  isData <- (if truthy picture then lift (isBase64Url E picture) else ret false);;
  if isData
  then log Debug "Filtering out Base64 data URL from avatar";;; ret JNull
  else ret picture.

Definition provisionArgs (accessToken refreshToken : string) (params : Params)
    (r : Resolved) (avatarUrl : JsVal) : ProvisionArgs :=
  {| pa_team :=
       {| td_teamId := team_id <$> r_team r; td_name := APP_NAME E;
          td_domain := r_domain r; td_subdomain := r_subdomain r |};
     pa_user :=
       {| ud_name := r_name r; ud_email := r_email r; ud_avatarUrl := avatarUrl |};
     pa_authenticationProvider :=
       {| pd_name := config_id E; pd_providerId := r_providerId r |};
     pa_authentication :=
       {| ad_providerId := r_profileId r; ad_accessToken := accessToken;
          ad_refreshToken := refreshToken; ad_expiresIn := expires_in params;
          ad_scopes := scopes |} |}.

(** From the fetched profile and the decoded token to the descriptors of
    the provisioning call, and the client that is attached to its result. *)
Definition describe (context : Context) (accessToken refreshToken : string)
    (params : Params) (profile token : JsVal) : M (ProvisionArgs * string) :=
  r <- reconcile context profile token;;
  avatarUrl <- filterAvatar profile;;
  ret (provisionArgs accessToken refreshToken params r avatarUrl, r_client r).

(** Everything the [try] block does before it calls the provisioner. *)
Definition prepare (context : Context) (accessToken refreshToken : string)
    (params : Params) : M (ProvisionArgs * string) :=
  profile <- fetchProfile accessToken;;
  token <- decodeToken params;;
  describe context accessToken refreshToken params profile token.

(** The [try] block. *)
Definition attempt (context : Context) (accessToken refreshToken : string)
    (params : Params) : M DoneCall :=
  prepared <- prepare context accessToken refreshToken params;;
  let args := fst prepared in
  let client := snd prepared in
  result <- call (EvProvision (ip context) args)
                 (accountProvisioner E (ip context) args);;
  ret (DoneOk (user result) result client).

(** The callback: the events it caused and its one call of [done]. *)
Definition callback (context : Context) (accessToken refreshToken : string)
    (params : Params) : list Event * DoneCall :=
  match attempt context accessToken refreshToken params with
  | (tr, Return d) => (tr, d)
  | (tr, Throw err) => (tr, DoneErr err)
  end.

End Callback.

(** ** Stand-ins for the imported helpers

    Concrete helpers, used to run the callback on concrete inputs.  The
    theorems below that quantify over [Env] do not depend on them. *)

(** lodash's [get(object, path)] for a path written with dots: a path that is
    itself a member is one key, otherwise the path is cut at every dot and
    followed while the value is neither [null] nor [undefined].  Bracket
    syntax and array indices are outside the model. *)
Definition has_member (o : JsVal) (k : string) : bool :=
  match o with
  | JObj members => bool_decide (is_Some (members !! k))
  | _ => false
  end.

Fixpoint baseGet (o : JsVal) (path : list string) : JsVal :=
  match path with
  | [] => o
  | k :: rest => if nullish o then JUndefined else baseGet (member o k) rest
  end.

Definition lodash_get (o : JsVal) (path : string) : JsVal :=
  if nullish o then JUndefined
  else if has_member o path then member o path
  else baseGet o (split_on "."%char path).

Fixpoint take_until (stop : ascii → bool) (s : string) : string :=
  match s with
  | EmptyString => EmptyString
  | String c rest => if stop c then EmptyString else String c (take_until stop rest)
  end.

Fixpoint drop_until (stop : ascii → bool) (s : string) : string :=
  match s with
  | EmptyString => EmptyString
  | String c rest => if stop c then s else drop_until stop rest
  end.

Definition lower (c : ascii) : ascii :=
  let n := nat_of_ascii c in
  if (65 <=? n)%nat && (n <=? 90)%nat then ascii_of_nat (n + 32) else c.

Fixpoint map_string (f : ascii → ascii) (s : string) : string :=
  match s with
  | EmptyString => EmptyString
  | String c rest => String (f c) (map_string f rest)
  end.

Definition is_char (c d : ascii) : bool := Ascii.eqb c d.

(** [new URL(u).hostname] for a URL of the shape [scheme://host...] with a
    DNS name as host: the authority ends at the first slash, question mark or
    hash; credentials and port are dropped, the name is lower-cased.
    Anything else is refused as the constructor refuses an invalid URL. *)
Definition hostname_of (u : string) : Result string :=
  let scheme := take_until (is_char ":") u in
  match drop_until (is_char ":") u with
  | String _ (String "/" (String "/" rest)) =>
      let authority :=
        take_until (λ c, is_char "/" c || is_char "?" c || is_char "#" c) rest in
      let hostport := List.last (split_on "@" authority) EmptyString in
      let host := map_string lower (take_until (is_char ":") hostport) in
      if String.eqb scheme "" || String.eqb host ""
      then Throw (TypeError "Invalid URL")
      else Return host
  | _ => Throw (TypeError "Invalid URL")
  end.

Fixpoint join (sep : string) (parts : list string) : string :=
  match parts with
  | [] => EmptyString
  | [w] => w
  | w :: ws => w ++ sep ++ join sep ws
  end.

(** Modelled from the spec: [parseEmail] of shared/utils/email, whose source
    is not part of the plugin.  "Parse email into local-part and domain; if
    domain extraction fails, fail": a string holding an at-sign yields what
    follows its last at-sign, anything else throws. *)
Definition parseEmail_model (email : JsVal) : Result string :=
  match email with
  | JStr s =>
      match split_on "@" s with
      | [] | [_] => Throw (ExternalError "parseEmail")
      | parts => Return (List.last parts EmptyString)
      end
  | _ => Throw (TypeError "email.split is not a function")
  end.

(** Modelled from the spec: [slugifyDomain] of shared/utils/domains, whose
    source is not part of the plugin.  "Removing the top-level domain segment
    and normalizing to a slug-safe form": the last dot-separated segment is
    dropped, the others are lower-cased and joined by hyphens. *)
Definition slugifyDomain_model (domain : string) : string :=
  map_string lower (join "-" (removelast (split_on "." domain))).

Fixpoint starts_with (p s : string) : bool :=
  match p, s with
  | EmptyString, _ => true
  | String a p', String b s' => Ascii.eqb a b && starts_with p' s'
  | String _ _, EmptyString => false
  end.

Fixpoint ends_with_rev (p s : list ascii) : bool :=
  match p, s with
  | [], _ => true
  | a :: p', b :: s' => Ascii.eqb a b && ends_with_rev p' s'
  | _ :: _, [] => false
  end.

Definition ends_with (p s : string) : bool :=
  ends_with_rev (rev (list_ascii_of_string p)) (rev (list_ascii_of_string s)).

(** Modelled from the spec: [isBase64Url] of shared/utils/urls, whose source
    is not part of the plugin.  "A Base64-encoded data URL (detected by a
    well-known URL-scheme prefix check)": a string that starts with [data:]
    and whose header, up to the first comma, ends with [;base64].  The spec
    is silent on values that are not strings; the stand-in answers no. *)
Definition isBase64Url_model (url : JsVal) : Result bool :=
  match url with
  | JStr s =>
      Return (starts_with "data:" s
              && ends_with ";base64" (take_until (is_char ",") s)
              && negb (String.eqb (drop_until (is_char ",") s) ""))
  | _ => Return false
  end.

(** The rows of the authentication-provider table, and [findOne] as the first
    row that agrees with every member of the [where] object. *)
Definition matches (w : Where) (row : AuthenticationProvider) : bool :=
  String.eqb (name row) (where_name w)
  && String.eqb (teamId row) (where_teamId w)
  && match where_providerId w with
     | Some d => String.eqb (providerId row) d
     | None => true
     end.

Definition table_findOne (rows : list AuthenticationProvider) (w : Where)
  : Result (option AuthenticationProvider) :=
  Return (List.find (matches w) rows).

(** An environment in which the userinfo endpoint answers [profile], the
    decoder answers [decoded], the request belongs to [tm] and the table holds
    [rows]; the provisioner reports a new user of a new team. *)
Definition sampleEnv (profile : JsVal) (decoded : Result JsVal)
    (tm : option Team) (rows : list AuthenticationProvider) : Env :=
  {| OIDC_USERNAME_CLAIM := "preferred_username";
     OIDC_SCOPES := "openid profile email";
     APP_NAME := "Outline";
     config_id := "oidc";
     request := λ _ _ _, Return profile;
     getTeamFromContext := λ _, Return tm;
     getClientFromContext := λ _, Return "web";
     JWT_decode := λ _, decoded;
     parseEmail := parseEmail_model;
     slugifyDomain := slugifyDomain_model;
     isBase64Url := isBase64Url_model;
     findOne := table_findOne rows;
     URL_hostname := hostname_of;
     get := lodash_get;
     accountProvisioner := λ _ _,
       Return {| user := "user-1"; team := "team-1";
                 isNewUser := true; isNewTeam := true |} |}.

Definition sampleEndpoints : OIDCEndpoints :=
  {| authorizationURL := "https://idp.example.com/authorize";
     tokenURL := "https://idp.example.com/token";
     userInfoURL := "https://idp.example.com/userinfo";
     logoutURL := None; pkce := None |}.

Definition sampleContext : Context :=
  {| ip := "203.0.113.7"; request_state := "" |}.

Definition sampleParams : Params :=
  {| expires_in := 3600; id_token := "header.payload.signature" |}.

Definition obj (members : list (string * JsVal)) : JsVal :=
  JObj (list_to_map members).

(** Sample claims, team and table rows. *)
Definition profileFull : JsVal :=
  obj [("sub", JStr "248289761001"); ("name", JStr "Jane Doe");
       ("email", JStr "user@acme.io")].

Definition profileNoSub : JsVal :=
  obj [("name", JStr "Jane Doe"); ("email", JStr "user@acme.io")].

Definition profileNoName : JsVal :=
  obj [("sub", JStr "248289761001"); ("email", JStr "user@acme.io")].

Definition profileNoEmail : JsVal :=
  obj [("sub", JStr "248289761001"); ("name", JStr "Jane Doe")].

Definition profileEmptyEmail : JsVal :=
  obj [("sub", JStr "248289761001"); ("name", JStr "Jane Doe"); ("email", JStr "")].

Definition profileDataPicture : JsVal :=
  obj [("sub", JStr "248289761001"); ("name", JStr "Jane Doe");
       ("email", JStr "user@acme.io");
       ("picture", JStr "data:image/png;base64,iVBORw0KGgo=")].

Definition tokenSubOnly : JsVal := obj [("sub", JStr "248289761001")].

Definition tokenEmail : JsVal :=
  obj [("sub", JStr "248289761001"); ("email", JStr "user@acme.io")].

Definition acmeTeam : Team := {| team_id := "team-acme" |}.

Definition acmeProvider : AuthenticationProvider :=
  {| name := "oidc"; teamId := "team-acme"; providerId := "acme.io" |}.

Definition legacyProvider : AuthenticationProvider :=
  {| name := "oidc"; teamId := "team-acme"; providerId := "login.acme.example" |}.

(** ** Vocabulary of the statements *)

Definition is_request (ev : Event) : bool :=
  match ev with EvRequest _ _ _ => true | _ => false end.

Definition is_findOne (ev : Event) : bool :=
  match ev with EvFindOne _ => true | _ => false end.

Definition is_provision (ev : Event) : bool :=
  match ev with EvProvision _ _ => true | _ => false end.

Definition is_log (ev : Event) : bool :=
  match ev with EvLog _ _ => true | _ => false end.

(** The environment [E] with another decoder. *)
Definition with_decoder (E : Env) (decode : string → Result JsVal) : Env :=
  {| OIDC_USERNAME_CLAIM := OIDC_USERNAME_CLAIM E;
     OIDC_SCOPES := OIDC_SCOPES E;
     APP_NAME := APP_NAME E;
     config_id := config_id E;
     request := request E;
     getTeamFromContext := getTeamFromContext E;
     getClientFromContext := getClientFromContext E;
     JWT_decode := decode;
     parseEmail := parseEmail E;
     slugifyDomain := slugifyDomain E;
     isBase64Url := isBase64Url E;
     findOne := findOne E;
     URL_hostname := URL_hostname E;
     get := get E;
     accountProvisioner := accountProvisioner E |}.

(** The decoder threw, or what it returned is falsy or not an object. *)
Definition decode_failed (E : Env) (params : Params) : Prop :=
  match JWT_decode E (id_token params) with
  | Throw _ => True
  | Return d => truthy d = false ∨ typeof d ≠ "object"
  end.

(** More sample claims: what ADFS answers, a username claim that is empty,
    an e-mail without a domain, a profile with claims the callback does not
    read, and endpoints whose authorization URL does not parse. *)
Definition profileSubOnly : JsVal := obj [("sub", JStr "248289761001")].

Definition tokenAdfs : JsVal :=
  obj [("sub", JStr "248289761001"); ("email", JStr "user@acme.io");
       ("preferred_username", JStr "jdoe")].

Definition profileEmptyUsername : JsVal :=
  obj [("sub", JStr "248289761001"); ("email", JStr "user@acme.io");
       ("preferred_username", JStr "")].

Definition tokenUsername : JsVal := obj [("preferred_username", JStr "jdoe")].

Definition profileNoDomain : JsVal :=
  obj [("sub", JStr "248289761001"); ("name", JStr "Jane Doe");
       ("email", JStr "user@")].

Definition profileEmailOnly : JsVal := obj [("email", JStr "user@acme.io")].

Definition profileExtra : JsVal :=
  obj [("sub", JStr "248289761001"); ("name", JStr "Jane Doe");
       ("email", JStr "user@acme.io"); ("locale", JStr "en-GB");
       ("groups", JArr [JStr "staff"; JStr "wiki"])].

Definition brokenEndpoints : OIDCEndpoints :=
  {| authorizationURL := "idp.example.com/authorize";
     tokenURL := "https://idp.example.com/token";
     userInfoURL := "https://idp.example.com/userinfo";
     logoutURL := None; pkce := None |}.

(** A login to the team of the request, and the descriptors it leads to. *)
Definition sampleTeamEnv : Env :=
  sampleEnv profileFull (Return tokenEmail) (Some acmeTeam) [acmeProvider].

Definition sampleTeamArgs : ProvisionArgs :=
  provisionArgs sampleTeamEnv "access" "refresh" sampleParams
    {| r_email := JStr "user@acme.io"; r_team := Some acmeTeam; r_client := "web";
       r_domain := "acme.io"; r_authenticationProvider := Some acmeProvider;
       r_providerId := "acme.io"; r_subdomain := "acme";
       r_name := JStr "Jane Doe"; r_profileId := JStr "248289761001" |}
    JUndefined.

(** The environment [E] with another transport, another data-URL test or
    another provisioner. *)
Definition with_request (E : Env) (req : Method → string → string → Result JsVal)
  : Env :=
  {| OIDC_USERNAME_CLAIM := OIDC_USERNAME_CLAIM E;
     OIDC_SCOPES := OIDC_SCOPES E;
     APP_NAME := APP_NAME E;
     config_id := config_id E;
     request := req;
     getTeamFromContext := getTeamFromContext E;
     getClientFromContext := getClientFromContext E;
     JWT_decode := JWT_decode E;
     parseEmail := parseEmail E;
     slugifyDomain := slugifyDomain E;
     isBase64Url := isBase64Url E;
     findOne := findOne E;
     URL_hostname := URL_hostname E;
     get := get E;
     accountProvisioner := accountProvisioner E |}.

Definition with_isBase64Url (E : Env) (test : JsVal → Result bool) : Env :=
  {| OIDC_USERNAME_CLAIM := OIDC_USERNAME_CLAIM E;
     OIDC_SCOPES := OIDC_SCOPES E;
     APP_NAME := APP_NAME E;
     config_id := config_id E;
     request := request E;
     getTeamFromContext := getTeamFromContext E;
     getClientFromContext := getClientFromContext E;
     JWT_decode := JWT_decode E;
     parseEmail := parseEmail E;
     slugifyDomain := slugifyDomain E;
     isBase64Url := test;
     findOne := findOne E;
     URL_hostname := URL_hostname E;
     get := get E;
     accountProvisioner := accountProvisioner E |}.

(** [e] is what one of the callback's collaborators threw.  The decoder is
    not among them: what it throws is caught where it is called. *)
Definition thrown_by_collaborator (E : Env) (endpoints : OIDCEndpoints)
    (context : Context) (accessToken : string) (e : Exn) : Prop :=
  request E (userinfoMethod endpoints) (userInfoURL endpoints) accessToken = Throw e
  ∨ getTeamFromContext E context = Throw e
  ∨ getClientFromContext E context = Throw e
  ∨ (∃ email, parseEmail E email = Throw e)
  ∨ (∃ query, findOne E query = Throw e)
  ∨ URL_hostname E (authorizationURL endpoints) = Throw e
  ∨ (∃ picture, isBase64Url E picture = Throw e)
  ∨ (∃ args, accountProvisioner E (ip context) args = Throw e).

(** The string has no character [c]. *)
Fixpoint lacks (c : ascii) (s : string) : bool :=
  match s with
  | EmptyString => true
  | String d rest => negb (Ascii.eqb d c) && lacks c rest
  end.

(** * Properties *)

(** ** The monad *)

Lemma bind_Return_inv {A B} (m : M A) (k : A → M B) tr b :
  bind m k = (tr, Return b) →
  ∃ tr1 a tr2, m = (tr1, Return a) ∧ k a = (tr2, Return b) ∧ tr = (tr1 ++ tr2)%list.
Proof.
  destruct m as [tr1 [e | a]]; simpl; [discriminate |].
  destruct (k a) as [tr2 r] eqn:Hk. intros [= <- ->]. by exists tr1, a, tr2.
Qed.

Lemma bind_Return {A B} (m : M A) (k : A → M B) tr1 a :
  m = (tr1, Return a) → bind m k = ((tr1 ++ fst (k a))%list, snd (k a)).
Proof. intros ->. simpl. by destruct (k a). Qed.

Lemma bind_Throw {A B} (m : M A) (k : A → M B) tr e :
  m = (tr, Throw e) → bind m k = (tr, Throw e).
Proof. by intros ->. Qed.

Lemma bind_ret {A B} (a : A) (k : A → M B) : bind (ret a) k = k a.
Proof. unfold bind, ret. by destruct (k a). Qed.

Lemma throw_if_Return_inv c e tr u :
  throw_if c e = (tr, Return u) → c = false ∧ tr = [].
Proof. destruct c; simpl; [discriminate |]. by intros [= <-]. Qed.

Lemma prop_member (o : JsVal) (k : string) :
  nullish o = false → prop o k = ret (member o k).
Proof. by destruct o. Qed.

Lemma prop_Return_inv (o : JsVal) (k : string) tr v :
  prop o k = (tr, Return v) → nullish o = false ∧ tr = [] ∧ v = member o k.
Proof. destruct o; simpl; try discriminate; by intros [= <- <-]. Qed.

(** ** Traces *)

Section Traces.
Variable P : Event → Prop.

Lemma trace_bind {A B} (m : M A) (k : A → M B) :
  Forall P (fst m) → (∀ a, Forall P (fst (k a))) → Forall P (fst (bind m k)).
Proof.
  destruct m as [tr1 [e | a]]; simpl; [done |].
  intros H1 H2. specialize (H2 a). destruct (k a) as [tr2 r]; simpl in *.
  by apply Forall_app.
Qed.

Lemma trace_try_catch {A} (m : M A) (h : Exn → M A) :
  Forall P (fst m) → (∀ e, Forall P (fst (h e))) → Forall P (fst (try_catch m h)).
Proof.
  destruct m as [tr1 [e | a]]; simpl; [| done].
  intros H1 H2. specialize (H2 e). destruct (h e) as [tr2 r]; simpl in *.
  by apply Forall_app.
Qed.

Lemma trace_prop o k : Forall P (fst (prop o k)).
Proof. destruct o; simpl; constructor. Qed.

Lemma trace_throw_if c e : Forall P (fst (throw_if c e)).
Proof. destruct c; simpl; constructor. Qed.

Lemma trace_lift {A} (r : Result A) : Forall P (fst (lift r)).
Proof. constructor. Qed.

Lemma trace_ret {A} (a : A) : Forall P (fst (ret a)).
Proof. constructor. Qed.

Lemma trace_call {A} ev (r : Result A) : P ev → Forall P (fst (call ev r)).
Proof. intros H. simpl. by repeat constructor. Qed.

Lemma trace_coalesce a b : Forall P (fst b) → Forall P (fst (coalesce a b)).
Proof. unfold coalesce. destruct (nullish a); [done | constructor]. Qed.
End Traces.

Ltac trace_step :=
  first [ apply trace_bind; [| intros ?]
        | apply trace_try_catch; [| intros ?]
        | apply trace_prop | apply trace_throw_if | apply trace_lift
        | apply trace_ret | apply trace_coalesce
        | apply trace_call; simpl; try done
        | apply Forall_cons; split; [simpl; try done |]
        | apply Forall_nil_2
        | match goal with |- Forall _ (fst (if ?c then _ else _)) => destruct c end
        | match goal with |- Forall _ (fst (match ?c with _ => _ end)) => destruct c end
        | progress simpl ].

Ltac trace_tac := repeat trace_step.

Section TraceShapes.
Variable E : Env.
Variable endpoints : OIDCEndpoints.

(** Decoding the token only logs. *)
Lemma decodeToken_trace params :
  Forall (λ ev, is_log ev = true) (fst (decodeToken E params)).
Proof. unfold decodeToken. trace_tac. Qed.

(** The reconciliation reads the team and the store, nothing else. *)
Lemma reconcile_trace context profile token :
  Forall (λ ev, is_request ev = false ∧ is_provision ev = false)
         (fst (reconcile E endpoints context profile token)).
Proof. unfold reconcile, resolveEmail, lookupProvider, resolveName, resolveProfileId. trace_tac. Qed.

Lemma filterAvatar_trace profile :
  Forall (λ ev, is_log ev = true) (fst (filterAvatar E profile)).
Proof. unfold filterAvatar. trace_tac. Qed.
End TraceShapes.

(** ** Inversion of a successful run *)

Tactic Notation "inv_bind" hyp(H) "as" ident(a) ident(Ha) :=
  let tr1 := fresh "tr" in
  let tr2 := fresh "tr" in
  let Heq := fresh "Htr" in
  apply bind_Return_inv in H as (tr1 & a & tr2 & Ha & H & Heq).

Section Inversion.
Variable E : Env.
Variable endpoints : OIDCEndpoints.

Lemma resolveEmail_silent profile token tr v :
  resolveEmail profile token = (tr, Return v) → tr = [] ∧ nullish profile = false.
Proof.
  unfold resolveEmail. intros H. inv_bind H as pe Hpe. inv_bind H as e He.
  apply prop_Return_inv in Hpe as (Hp & -> & ->).
  unfold coalesce in *.
  destruct (nullish (member profile "email")).
  - apply prop_Return_inv in He as (_ & -> & ->).
    destruct (nullish (member token "email")); injection H as <- <-; by subst.
  - injection He as <- <-.
    destruct (nullish (member profile "email")); injection H as <- <-; by subst.
Qed.

Lemma resolveName_silent profile username tr v :
  resolveName profile username = (tr, Return v) → tr = [].
Proof.
  unfold resolveName. intros H. inv_bind H as pn Hpn.
  apply prop_Return_inv in Hpn as (Hp & -> & ->).
  destruct (truthy (member profile "name")); [injection H as <- <-; by subst |].
  destruct (truthy username); [injection H as <- <-; by subst |].
  apply prop_Return_inv in H as (_ & -> & ->). by subst.
Qed.

Lemma resolveProfileId_silent profile tr v :
  resolveProfileId profile = (tr, Return v) → tr = [].
Proof.
  unfold resolveProfileId. intros H. inv_bind H as ps Hps.
  apply prop_Return_inv in Hps as (Hp & -> & ->).
  destruct (truthy (member profile "sub"));
    apply prop_Return_inv in H as (_ & -> & ->); by subst.
Qed.

(** What a run of [reconcile] that returns has established. *)
Lemma reconcile_Return_inv context profile token tr r :
  reconcile E endpoints context profile token = (tr, Return r) →
  ∃ trl h,
    nullish profile = false
    ∧ resolveEmail profile token = ([], Return (r_email r))
    ∧ truthy (r_email r) = true
    ∧ getTeamFromContext E context = Return (r_team r)
    ∧ getClientFromContext E context = Return (r_client r)
    ∧ parseEmail E (r_email r) = Return (r_domain r)
    ∧ lookupProvider E (r_team r) (r_domain r)
      = (trl, Return (r_authenticationProvider r))
    ∧ URL_hostname E (authorizationURL endpoints) = Return h
    ∧ r_providerId r
      = match r_authenticationProvider r with
        | Some p => providerId p
        | None => h
        end
    ∧ r_domain r ≠ ""
    ∧ r_subdomain r = slugifyDomain E (r_domain r)
    ∧ resolveName profile (resolveUsername E profile token) = ([], Return (r_name r))
    ∧ resolveProfileId profile = ([], Return (r_profileId r))
    ∧ truthy (r_name r) = true
    ∧ truthy (r_profileId r) = true
    ∧ tr = EvGetTeam :: trl.
Proof.
  unfold reconcile. intros H.
  inv_bind H as email Hemail.
  destruct (resolveEmail_silent _ _ _ _ Hemail) as [-> Hprofile].
  inv_bind H as u1 Htruthy. apply throw_if_Return_inv in Htruthy as [Htruthy ->].
  inv_bind H as tm Hteam. injection Hteam as <- Hteam.
  inv_bind H as client Hclient. injection Hclient as <- Hclient.
  inv_bind H as domain Hdomain. injection Hdomain as <- Hdomain.
  inv_bind H as ap Hlookup.
  inv_bind H as h Hhost. injection Hhost as <- Hhost.
  inv_bind H as u2 Hne. apply throw_if_Return_inv in Hne as [Hne ->].
  inv_bind H as nm Hname.
  pose proof (resolveName_silent _ _ _ _ Hname) as ->.
  inv_bind H as profileId Hid.
  pose proof (resolveProfileId_silent _ _ _ Hid) as ->.
  inv_bind H as u3 Hnm. apply throw_if_Return_inv in Hnm as [Hnm ->].
  inv_bind H as u4 Hpid. apply throw_if_Return_inv in Hpid as [Hpid ->].
  injection H as <- <-. subst. simpl.
  apply negb_false_iff in Htruthy, Hnm, Hpid.
  apply String.eqb_neq in Hne.
  eexists _, h. rewrite !app_nil_r.
  repeat split; eauto.
Qed.
End Inversion.

Section Runs.
Variable E : Env.
Variable endpoints : OIDCEndpoints.
Variable context : Context.
Variables accessToken refreshToken : string.
Variable params : Params.

Let requested : Event :=
  EvRequest (userinfoMethod endpoints) (userInfoURL endpoints) accessToken.

(** The decoder block always returns, and what it returns can be read. *)
Lemma decodeToken_returns :
  ∃ tr token, decodeToken E params = (tr, Return token) ∧ nullish token = false.
Proof.
  unfold decodeToken, lift. destruct (JWT_decode E (id_token params)) as [e | d]; simpl.
  - by eexists _, _.
  - destruct d as [| | [] | n | s | items | members | fname]; simpl;
      try destruct (negb _); simpl; by eexists _, _.
Qed.

Lemma decodeToken_failed :
  decode_failed E params → ∃ tr, decodeToken E params = (tr, Return (JObj ∅)).
Proof.
  unfold decode_failed, decodeToken, lift.
  destruct (JWT_decode E (id_token params)) as [e | d]; simpl.
  - by eexists.
  - intros [Hd | Hd].
    + rewrite Hd. simpl. by eexists.
    + assert (String.eqb (typeof d) "object" = false) as ->
        by (by apply String.eqb_neq).
      rewrite orb_true_r. simpl. by eexists.
Qed.

(** A run of [prepare] after the userinfo endpoint answered. *)
Lemma prepare_fetched profile trd token :
  request E (userinfoMethod endpoints) (userInfoURL endpoints) accessToken
  = Return profile →
  decodeToken E params = (trd, Return token) →
  prepare E endpoints context accessToken refreshToken params
  = ((requested :: trd
        ++ fst (describe E endpoints context accessToken refreshToken params
                  profile token))%list,
     snd (describe E endpoints context accessToken refreshToken params profile token)).
Proof.
  intros Hreq Hdec. unfold prepare, fetchProfile, call. rewrite Hreq.
  unfold bind. rewrite Hdec. by destruct (describe _ _ _ _ _ _ _ _).
Qed.

Lemma prepare_not_fetched e :
  request E (userinfoMethod endpoints) (userInfoURL endpoints) accessToken
  = Throw e →
  prepare E endpoints context accessToken refreshToken params
  = ([requested], Throw e).
Proof. intros Hreq. unfold prepare, fetchProfile, call. by rewrite Hreq. Qed.

Lemma describe_trace profile token :
  Forall (λ ev, is_request ev = false ∧ is_provision ev = false)
    (fst (describe E endpoints context accessToken refreshToken params profile token)).
Proof.
  unfold describe. apply trace_bind; [apply reconcile_trace |]. intros r.
  apply trace_bind; [| intros; apply trace_ret].
  eapply Forall_impl; [apply filterAvatar_trace |].
  by intros [] [=].
Qed.

(** Before the provisioner is called there is one request and no
    provisioning. *)
Lemma prepare_trace :
  ∃ rest,
    fst (prepare E endpoints context accessToken refreshToken params)
    = requested :: rest
    ∧ Forall (λ ev, is_request ev = false ∧ is_provision ev = false) rest.
Proof.
  destruct (request E (userinfoMethod endpoints) (userInfoURL endpoints) accessToken)
    as [e | profile] eqn:Hreq.
  - rewrite (prepare_not_fetched e Hreq). by exists [].
  - destruct decodeToken_returns as (trd & token & Hdec & _).
    rewrite (prepare_fetched profile trd token Hreq Hdec). simpl.
    eexists; split; [done |]. apply Forall_app; split; [| apply describe_trace].
    pose proof (decodeToken_trace E params) as Hlog. rewrite Hdec in Hlog.
    eapply Forall_impl; [exact Hlog |]. by intros [] [=].
Qed.

(** The callback calls [done] with the error of a failed [prepare]. *)
Lemma callback_prepare_failed tr e :
  prepare E endpoints context accessToken refreshToken params = (tr, Throw e) →
  callback E endpoints context accessToken refreshToken params = (tr, DoneErr e).
Proof. intros H. unfold callback, attempt, bind. by rewrite H. Qed.

(** After a successful [prepare] the provisioner is called, and its outcome
    decides the call of [done]. *)
Lemma callback_prepared tr args client :
  prepare E endpoints context accessToken refreshToken params
  = (tr, Return (args, client)) →
  callback E endpoints context accessToken refreshToken params
  = ((tr ++ [EvProvision (ip context) args])%list,
     match accountProvisioner E (ip context) args with
     | Return result => DoneOk (user result) result client
     | Throw e => DoneErr e
     end).
Proof.
  intros H. unfold callback, attempt, bind, call, ret. rewrite H. simpl.
  destruct (accountProvisioner E (ip context) args); simpl; by rewrite ?app_nil_r.
Qed.
End Runs.

Section Outcomes.
Variable E : Env.
Variable endpoints : OIDCEndpoints.
Variable context : Context.
Variables accessToken refreshToken : string.
Variable params : Params.

Lemma describe_Return_inv profile token tr args client :
  describe E endpoints context accessToken refreshToken params profile token
  = (tr, Return (args, client)) →
  ∃ trr r tra avatarUrl,
    reconcile E endpoints context profile token = (trr, Return r)
    ∧ filterAvatar E profile = (tra, Return avatarUrl)
    ∧ args = provisionArgs E accessToken refreshToken params r avatarUrl
    ∧ client = r_client r
    ∧ tr = (trr ++ tra)%list.
Proof.
  unfold describe. intros H.
  inv_bind H as r Hr. inv_bind H as avatarUrl Hav.
  injection H as <- <- <-. subst. rewrite app_nil_r. by eexists _, _, _, _.
Qed.

Lemma prepare_Return_inv tr args client :
  prepare E endpoints context accessToken refreshToken params
  = (tr, Return (args, client)) →
  ∃ profile trd token trr r tra avatarUrl,
    request E (userinfoMethod endpoints) (userInfoURL endpoints) accessToken
    = Return profile
    ∧ decodeToken E params = (trd, Return token)
    ∧ reconcile E endpoints context profile token = (trr, Return r)
    ∧ filterAvatar E profile = (tra, Return avatarUrl)
    ∧ args = provisionArgs E accessToken refreshToken params r avatarUrl
    ∧ client = r_client r
    ∧ tr = (EvRequest (userinfoMethod endpoints) (userInfoURL endpoints) accessToken
              :: trd ++ trr ++ tra)%list.
Proof.
  unfold prepare. intros H.
  inv_bind H as profile Hreq. injection Hreq as <- Hreq.
  inv_bind H as token Hdec.
  apply describe_Return_inv in H as (trr & r & tra & av & Hr & Hav & -> & -> & ->).
  subst. by eexists _, _, _, _, _, _, _.
Qed.

(** The outcome of the callback in terms of the outcome of [prepare]. *)
Lemma callback_outcome :
  snd (callback E endpoints context accessToken refreshToken params)
  = match snd (prepare E endpoints context accessToken refreshToken params) with
    | Throw e => DoneErr e
    | Return (args, client) =>
        match accountProvisioner E (ip context) args with
        | Return result => DoneOk (user result) result client
        | Throw e => DoneErr e
        end
    end.
Proof.
  destruct (prepare E endpoints context accessToken refreshToken params)
    as [tr [e | [args client]]] eqn:H.
  - by rewrite (callback_prepare_failed _ _ _ _ _ _ _ _ H).
  - by rewrite (callback_prepared _ _ _ _ _ _ _ _ _ H).
Qed.

(** The callback sends one request, first. *)
Lemma callback_trace :
  ∃ rest,
    fst (callback E endpoints context accessToken refreshToken params)
    = EvRequest (userinfoMethod endpoints) (userInfoURL endpoints) accessToken :: rest
    ∧ Forall (λ ev, is_request ev = false) rest.
Proof.
  destruct (prepare_trace E endpoints context accessToken refreshToken params)
    as (rest & Hfst & Hrest).
  assert (Forall (λ ev, is_request ev = false) rest) as Hrest'
    by (eapply Forall_impl; [exact Hrest |]; intros ? [Hq _]; exact Hq).
  destruct (prepare E endpoints context accessToken refreshToken params)
    as [tr [e | [args client]]] eqn:H; simpl in Hfst; subst tr.
  - rewrite (callback_prepare_failed _ _ _ _ _ _ _ _ H). by exists rest.
  - rewrite (callback_prepared _ _ _ _ _ _ _ _ _ H). simpl.
    eexists; split; [done |]. apply Forall_app; split; [done |].
    by repeat constructor.
Qed.
End Outcomes.

(** ** The userinfo request *)

(** C8. The userinfo fetch uses POST exactly when the configured userinfo
    endpoint is on the static list of endpoints that require POST, a list
    that holds the Dropbox endpoint and nothing else; every other endpoint is
    fetched with GET.  The request is the first event of the callback, is
    sent with that method, and is the only request. *)
Theorem C8_userinfo_method E endpoints context accessToken refreshToken params :
  usePostMethod = ["https://api.dropboxapi.com/2/openid/userinfo"]
  ∧ userinfoMethod endpoints
    = (if bool_decide (userInfoURL endpoints ∈ usePostMethod) then POST else GET)
  ∧ userinfoMethod endpoints
    = (if bool_decide
            (userInfoURL endpoints = "https://api.dropboxapi.com/2/openid/userinfo")
       then POST else GET)
  ∧ ∃ rest,
      fst (callback E endpoints context accessToken refreshToken params)
      = EvRequest (userinfoMethod endpoints) (userInfoURL endpoints) accessToken :: rest
      ∧ Forall (λ ev, is_request ev = false) rest.
Proof.
  assert (userinfoMethod endpoints
          = (if bool_decide
                  (userInfoURL endpoints = "https://api.dropboxapi.com/2/openid/userinfo")
             then POST else GET)) as Hm.
  { unfold userinfoMethod, includes, usePostMethod. cbn [existsb].
    rewrite orb_false_r.
    destruct (String.eqb_spec (userInfoURL endpoints)
                "https://api.dropboxapi.com/2/openid/userinfo") as [Heq | Hne].
    - by rewrite bool_decide_eq_true_2.
    - by rewrite bool_decide_eq_false_2. }
  split; [done |]. split; [| split; [exact Hm | apply callback_trace]].
  rewrite Hm. unfold usePostMethod.
  destruct (decide (userInfoURL endpoints = "https://api.dropboxapi.com/2/openid/userinfo"))
    as [Heq | Hne].
  - rewrite !bool_decide_eq_true_2; [done | | done]. rewrite Heq. constructor.
  - rewrite !bool_decide_eq_false_2; [done | | done].
    intros Hin. inversion Hin as [| ? ? ? Hnil]; [done | inversion Hnil].
Qed.

(** ** Failures *)

(** C9. When anything before the provisioning call fails (the userinfo
    fetch, the normalization, the resolution), the callback ends without
    calling the account provisioner and hands the error to [done] as
    [done(err, null)], which no successful call [done(null, user, result)]
    can be mistaken for. *)
Theorem C9_failure_skips_provisioner E endpoints context accessToken refreshToken
    params tr e :
  prepare E endpoints context accessToken refreshToken params = (tr, Throw e) →
  callback E endpoints context accessToken refreshToken params = (tr, DoneErr e)
  ∧ Forall (λ ev, is_provision ev = false) tr
  ∧ ∀ u result client, DoneErr e ≠ DoneOk u result client.
Proof.
  intros H. split; [by apply callback_prepare_failed |]. split; [| done].
  destruct (prepare_trace E endpoints context accessToken refreshToken params)
    as (rest & Hfst & Hrest).
  rewrite H in Hfst. simpl in Hfst. subst tr.
  constructor; [done |]. eapply Forall_impl; [exact Hrest |]. intros ? [_ Hp]. exact Hp.
Qed.

Lemma C9_failure_skips_provisioner_witness :
  callback (sampleEnv profileNoName (Return tokenSubOnly) None [])
    sampleEndpoints sampleContext "access" "refresh" sampleParams
  = ([EvRequest GET "https://idp.example.com/userinfo" "access"; EvGetTeam],
     DoneErr (name_missing "preferred_username" "https://idp.example.com/userinfo"))
  ∧ Forall (λ ev, is_provision ev = false)
      [EvRequest GET "https://idp.example.com/userinfo" "access"; EvGetTeam]
  ∧ ∀ u result client,
      DoneErr (name_missing "preferred_username" "https://idp.example.com/userinfo")
      ≠ DoneOk u result client.
Proof.
  exact (C9_failure_skips_provisioner
           (sampleEnv profileNoName (Return tokenSubOnly) None [])
           sampleEndpoints sampleContext "access" "refresh" sampleParams
           [EvRequest GET "https://idp.example.com/userinfo" "access"; EvGetTeam]
           (name_missing "preferred_username" "https://idp.example.com/userinfo")
           eq_refl).
Defined.

(** ** The ID token *)

(** C5. Decoding the ID token is best-effort.  Whenever the decoder throws,
    or returns something falsy or something that is not an object, the token
    claims are the empty object, the callback goes on from the fetched
    profile with that empty object, and it ends as it would have ended had
    the token decoded to an empty object: the failure to decode is never the
    reason the callback fails. *)
Theorem C5_decode_is_best_effort E endpoints context accessToken refreshToken params :
  decode_failed E params →
  (∃ tr, decodeToken E params = (tr, Return (JObj ∅)))
  ∧ (∀ profile,
        request E (userinfoMethod endpoints) (userInfoURL endpoints) accessToken
        = Return profile →
        snd (prepare E endpoints context accessToken refreshToken params)
        = snd (describe E endpoints context accessToken refreshToken params
                 profile (JObj ∅)))
  ∧ snd (callback E endpoints context accessToken refreshToken params)
    = snd (callback (with_decoder E (λ _, Return (JObj ∅)))
             endpoints context accessToken refreshToken params).
Proof.
  intros Hfail. destruct (decodeToken_failed E params Hfail) as [trd Hdec].
  split; [by exists trd |].
  assert (∀ profile,
        request E (userinfoMethod endpoints) (userInfoURL endpoints) accessToken
        = Return profile →
        snd (prepare E endpoints context accessToken refreshToken params)
        = snd (describe E endpoints context accessToken refreshToken params
                 profile (JObj ∅))) as Hgo.
  { intros profile Hreq.
    by rewrite (prepare_fetched E endpoints context accessToken refreshToken params
                  profile trd (JObj ∅) Hreq Hdec). }
  split; [exact Hgo |].
  set (E' := with_decoder E (λ _, Return (JObj ∅))).
  rewrite !callback_outcome.
  change (accountProvisioner E') with (accountProvisioner E).
  destruct (request E (userinfoMethod endpoints) (userInfoURL endpoints) accessToken)
    as [e | profile] eqn:Hreq.
  - rewrite (prepare_not_fetched E endpoints context accessToken refreshToken params e Hreq).
    by rewrite (prepare_not_fetched E' endpoints context accessToken refreshToken params
                  e Hreq).
  - rewrite (Hgo profile eq_refl).
    by rewrite (prepare_fetched E' endpoints context accessToken refreshToken params
                  profile [] (JObj ∅) Hreq eq_refl).
Qed.

Lemma C5_decode_is_best_effort_witness :
  decode_failed (sampleEnv profileFull (Throw (ExternalError "jwt malformed")) None [])
    sampleParams
  ∧ ∃ u result client,
      snd (callback (sampleEnv profileFull (Throw (ExternalError "jwt malformed")) None [])
             sampleEndpoints sampleContext "access" "refresh" sampleParams)
      = DoneOk u result client.
Proof.
  split; [exact I |].
  destruct (C5_decode_is_best_effort
              (sampleEnv profileFull (Throw (ExternalError "jwt malformed")) None [])
              sampleEndpoints sampleContext "access" "refresh" sampleParams I)
    as (_ & _ & ->).
  vm_compute. by eexists _, _, _.
Defined.

(** ** The provider *)

(** C6. The provider lookup is a two-step fallback.  With a known team the
    store is first asked for the OIDC provider of that team whose providerId
    is the e-mail domain; when it has one, that provider is the result and
    the store is not asked again; when it has none, the result is whatever
    the store answers for any OIDC provider of that team.  Without a team the
    store is not asked, and no provider is returned. *)
Theorem C6_two_step_lookup E (tm : option Team) (domain : string) :
  match tm with
  | None => lookupProvider E None domain = ([], Return None)
  | Some t =>
      exactQuery t domain
      = {| where_name := "oidc"; where_teamId := team_id t;
           where_providerId := Some domain |}
      ∧ teamQuery t
        = {| where_name := "oidc"; where_teamId := team_id t;
             where_providerId := None |}
      ∧ match findOne E (exactQuery t domain) with
        | Return (Some p) =>
            lookupProvider E (Some t) domain
            = ([EvFindOne (exactQuery t domain)], Return (Some p))
        | Return None =>
            lookupProvider E (Some t) domain
            = ([EvFindOne (exactQuery t domain); EvFindOne (teamQuery t)],
               findOne E (teamQuery t))
        | Throw e =>
            lookupProvider E (Some t) domain
            = ([EvFindOne (exactQuery t domain)], Throw e)
        end
  end.
Proof.
  destruct tm as [t |]; [| done].
  split; [done |]. split; [done |].
  unfold lookupProvider, call, bind, ret.
  destruct (findOne E (exactQuery t domain)) as [e | [p |]]; done.
Qed.

Example lookup_exact_match :
  lookupProvider (sampleEnv profileFull (Return tokenEmail) (Some acmeTeam)
                    [legacyProvider; acmeProvider])
    (Some acmeTeam) "acme.io"
  = ([EvFindOne (exactQuery acmeTeam "acme.io")], Return (Some acmeProvider)).
Proof. reflexivity. Qed.

Example lookup_falls_back :
  lookupProvider (sampleEnv profileFull (Return tokenEmail) (Some acmeTeam)
                    [legacyProvider])
    (Some acmeTeam) "acme.io"
  = ([EvFindOne (exactQuery acmeTeam "acme.io"); EvFindOne (teamQuery acmeTeam)],
     Return (Some legacyProvider)).
Proof. reflexivity. Qed.

(** Over a table of rows the two-step lookup returns a row of the team, and
    misses only when the team has no OIDC row at all. *)
Section Store.
Variable E : Env.
Variable rows : list AuthenticationProvider.
Hypothesis findOne_table : ∀ w, findOne E w = table_findOne rows w.

Lemma matches_teamQuery t row :
  matches (teamQuery t) row = true ↔ name row = "oidc" ∧ teamId row = team_id t.
Proof.
  unfold matches, teamQuery. simpl. rewrite andb_true_r, andb_true_iff.
  by rewrite !String.eqb_eq.
Qed.

Lemma matches_exactQuery t domain row :
  matches (exactQuery t domain) row = true
  ↔ name row = "oidc" ∧ teamId row = team_id t ∧ providerId row = domain.
Proof.
  unfold matches, exactQuery. simpl. rewrite !andb_true_iff, !String.eqb_eq. tauto.
Qed.

Lemma lookup_in_table t domain tr p :
  lookupProvider E (Some t) domain = (tr, Return (Some p)) →
  In p rows ∧ name p = "oidc" ∧ teamId p = team_id t.
Proof.
  unfold lookupProvider, call, bind, ret. rewrite !findOne_table. unfold table_findOne.
  destruct (List.find (matches (exactQuery t domain)) rows) as [q |] eqn:Hexact.
  - intros [= _ ->]. apply find_some in Hexact as [Hin Hm].
    apply matches_exactQuery in Hm. tauto.
  - intros [= _ Hteam]. apply find_some in Hteam as [Hin Hm].
    apply matches_teamQuery in Hm. tauto.
Qed.

Lemma lookup_misses t domain tr :
  lookupProvider E (Some t) domain = (tr, Return None) →
  ∀ row, In row rows → ¬ (name row = "oidc" ∧ teamId row = team_id t).
Proof.
  unfold lookupProvider, call, bind, ret. rewrite !findOne_table. unfold table_findOne.
  destruct (List.find (matches (exactQuery t domain)) rows) as [q |] eqn:Hexact;
    [discriminate |].
  intros [= _ Hteam] row Hin Hrow.
  pose proof (find_none _ _ Hteam row Hin) as Hno.
  apply matches_teamQuery in Hrow. congruence.
Qed.
End Store.

(** C7. The providerId attached to the login is the stored providerId of the
    provider that the two-step lookup found, and the hostname of the
    configured authorization endpoint when it found none.  With no team, no
    stored provider and the authorization endpoint
    https://idp.example.com/authorize it is idp.example.com. *)
Theorem C7_providerId_of_login :
  (∀ E endpoints context accessToken refreshToken params tr args client,
      prepare E endpoints context accessToken refreshToken params
      = (tr, Return (args, client)) →
      ∃ tm domain trl found,
        getTeamFromContext E context = Return tm
        ∧ parseEmail E (ud_email (pa_user args)) = Return domain
        ∧ lookupProvider E tm domain = (trl, Return found)
        ∧ match found with
          | Some p => pd_providerId (pa_authenticationProvider args) = providerId p
          | None =>
              URL_hostname E (authorizationURL endpoints)
              = Return (pd_providerId (pa_authenticationProvider args))
          end)
  ∧ hostname_of "https://idp.example.com/authorize" = Return "idp.example.com"
  ∧ ∃ tr args client,
      prepare (sampleEnv profileFull (Return tokenEmail) None [])
        sampleEndpoints sampleContext "access" "refresh" sampleParams
      = (tr, Return (args, client))
      ∧ pd_providerId (pa_authenticationProvider args) = "idp.example.com".
Proof.
  split.
  - intros E endpoints context accessToken refreshToken params tr args client H.
    apply prepare_Return_inv in H
      as (profile & trd & token & trr & r & tra & av & _ & _ & Hr & _ & -> & _ & _).
    apply reconcile_Return_inv in Hr
      as (trl & h & _ & _ & _ & Hteam & _ & Hdomain & Hlookup & Hhost & Hid & _).
    exists (r_team r), (r_domain r), trl, (r_authenticationProvider r).
    repeat split; try done. simpl. rewrite Hid.
    by destruct (r_authenticationProvider r).
  - split; [reflexivity |]. by eexists _, _, _.
Qed.

Lemma C7_providerId_of_login_witness :
  ∃ tm domain trl found,
    getTeamFromContext
      (sampleEnv profileFull (Return tokenEmail) (Some acmeTeam) [legacyProvider])
      sampleContext = Return tm
    ∧ parseEmail
        (sampleEnv profileFull (Return tokenEmail) (Some acmeTeam) [legacyProvider])
        (JStr "user@acme.io") = Return domain
    ∧ lookupProvider
        (sampleEnv profileFull (Return tokenEmail) (Some acmeTeam) [legacyProvider])
        tm domain = (trl, Return found)
    ∧ match found with
      | Some p => "login.acme.example" = providerId p
      | None => hostname_of "https://idp.example.com/authorize"
                = Return "login.acme.example"
      end.
Proof.
  exact (proj1 C7_providerId_of_login
           (sampleEnv profileFull (Return tokenEmail) (Some acmeTeam) [legacyProvider])
           sampleEndpoints sampleContext "access" "refresh" sampleParams
           _ _ _ eq_refl).
Defined.

(** ** The e-mail *)

Section Email.
Variable E : Env.
Variable endpoints : OIDCEndpoints.
Variable context : Context.
Variables accessToken refreshToken : string.
Variable params : Params.

(** The e-mail fallback on values that can be read. *)
Lemma resolveEmail_value profile token :
  nullish profile = false →
  nullish token = false →
  resolveEmail profile token
  = ret (let pe := member profile "email" in
         let e := if nullish pe then member token "email" else pe in
         if nullish e then JNull else e).
Proof.
  intros Hp Ht. unfold resolveEmail. rewrite (prop_member _ _ Hp), bind_ret.
  unfold coalesce. destruct (nullish (member profile "email")) eqn:Hpe.
  - rewrite (prop_member _ _ Ht), bind_ret. by destruct (nullish (member token "email")).
  - by rewrite bind_ret, Hpe.
Qed.

(** A falsy e-mail stops the reconciliation at its first check. *)
Lemma reconcile_email_falsy profile token email :
  resolveEmail profile token = ([], Return email) →
  truthy email = false →
  reconcile E endpoints context profile token = ([], Throw email_missing).
Proof.
  intros He Hfalsy. unfold reconcile.
  rewrite (bind_Return _ _ _ _ He). by rewrite Hfalsy.
Qed.

Lemma callback_email_falsy profile trd token email :
  request E (userinfoMethod endpoints) (userInfoURL endpoints) accessToken
  = Return profile →
  decodeToken E params = (trd, Return token) →
  resolveEmail profile token = ([], Return email) →
  truthy email = false →
  callback E endpoints context accessToken refreshToken params
  = (EvRequest (userinfoMethod endpoints) (userInfoURL endpoints) accessToken :: trd,
     DoneErr email_missing).
Proof.
  intros Hreq Hdec He Hfalsy. apply callback_prepare_failed.
  rewrite (prepare_fetched _ _ _ _ _ _ _ _ _ Hreq Hdec). unfold describe.
  rewrite (reconcile_email_falsy _ _ _ He Hfalsy). simpl. by rewrite app_nil_r.
Qed.

Lemma decodeToken_readable trd token :
  decodeToken E params = (trd, Return token) →
  nullish token = false ∧ Forall (λ ev, is_log ev = true) trd.
Proof.
  intros Hdec. split.
  - destruct (decodeToken_returns E params) as (tr' & token' & Hdec' & Hn).
    rewrite Hdec in Hdec'. by injection Hdec' as _ <-.
  - pose proof (decodeToken_trace E params) as Hlog. by rewrite Hdec in Hlog.
Qed.
End Email.

(** C10. When the e-mail of the userinfo profile is the empty string the
    callback ends with the error that says the e-mail is missing, whatever
    the decoded token holds: [??] falls back to the token only for [null] and
    [undefined], and the check that follows rejects the empty string. *)
Theorem C10_empty_profile_email E endpoints context accessToken refreshToken params
    profile trd token :
  request E (userinfoMethod endpoints) (userInfoURL endpoints) accessToken
  = Return profile →
  decodeToken E params = (trd, Return token) →
  member profile "email" = JStr "" →
  resolveEmail profile token = ([], Return (JStr ""))
  ∧ callback E endpoints context accessToken refreshToken params
    = (EvRequest (userinfoMethod endpoints) (userInfoURL endpoints) accessToken :: trd,
       DoneErr email_missing).
Proof.
  intros Hreq Hdec Hempty.
  assert (nullish profile = false) as Hp by (by destruct profile).
  destruct (decodeToken_readable E params trd token Hdec) as [Ht _].
  pose proof (resolveEmail_value profile token Hp Ht) as He.
  rewrite Hempty in He. simpl in He. split; [exact He |].
  by apply (callback_email_falsy E endpoints context accessToken refreshToken
              params profile trd token (JStr "")).
Qed.

Lemma C10_empty_profile_email_witness :
  truthy (member tokenEmail "email") = true
  ∧ resolveEmail profileEmptyEmail tokenEmail = ([], Return (JStr ""))
  ∧ callback (sampleEnv profileEmptyEmail (Return tokenEmail) None [])
      sampleEndpoints sampleContext "access" "refresh" sampleParams
    = ([EvRequest GET "https://idp.example.com/userinfo" "access"],
       DoneErr email_missing).
Proof.
  split; [reflexivity |].
  exact (C10_empty_profile_email
           (sampleEnv profileEmptyEmail (Return tokenEmail) None [])
           sampleEndpoints sampleContext "access" "refresh" sampleParams
           profileEmptyEmail [] tokenEmail eq_refl eq_refl eq_refl).
Defined.

(** ** The avatar *)

(** C4. A picture that [isBase64Url] detects as a Base64 data URL is replaced
    by [null]: once the checks before it have passed, the descriptors are
    built with [avatarUrl] equal to [null] and the provisioner is called with
    them, so the picture is never the reason the callback fails.  A picture
    that is absent, empty or not detected is handed on as it is. *)
Theorem C4_base64_avatar_dropped E endpoints context accessToken refreshToken params
    profile trd token trr r :
  request E (userinfoMethod endpoints) (userInfoURL endpoints) accessToken
  = Return profile →
  decodeToken E params = (trd, Return token) →
  reconcile E endpoints context profile token = (trr, Return r) →
  let picture := member profile "picture" in
  let requested :=
    EvRequest (userinfoMethod endpoints) (userInfoURL endpoints) accessToken in
  (truthy picture = true → isBase64Url E picture = Return true →
   ∃ args,
     ud_avatarUrl (pa_user args) = JNull
     ∧ args = provisionArgs E accessToken refreshToken params r JNull
     ∧ prepare E endpoints context accessToken refreshToken params
       = ((requested :: trd ++ trr
             ++ [EvLog Debug "Filtering out Base64 data URL from avatar"])%list,
          Return (args, r_client r))
     ∧ fst (callback E endpoints context accessToken refreshToken params)
       = (requested :: trd ++ trr
            ++ [EvLog Debug "Filtering out Base64 data URL from avatar";
                EvProvision (ip context) args])%list)
  ∧ (truthy picture = false ∨ isBase64Url E picture = Return false →
     ∃ args,
       ud_avatarUrl (pa_user args) = picture
       ∧ args = provisionArgs E accessToken refreshToken params r picture
       ∧ prepare E endpoints context accessToken refreshToken params
         = ((requested :: trd ++ trr)%list, Return (args, r_client r))).
Proof.
  intros Hreq Hdec Hr picture requested.
  pose proof (reconcile_Return_inv E endpoints context profile token trr r Hr)
    as (_ & _ & Hp & _).
  rewrite (prepare_fetched _ _ _ _ _ _ _ _ _ Hreq Hdec). fold requested.
  unfold describe. rewrite (bind_Return _ _ _ _ Hr).
  unfold filterAvatar. rewrite (prop_member _ _ Hp), bind_ret. fold picture.
  split.
  - intros Htruthy Hdata. rewrite Htruthy, Hdata. simpl.
    eexists. split; [| split; [reflexivity |]]; [done |].
    split; [done |].
    erewrite callback_prepared.
    2:{ rewrite (prepare_fetched _ _ _ _ _ _ _ _ _ Hreq Hdec). unfold describe.
        rewrite (bind_Return _ _ _ _ Hr). unfold filterAvatar.
        rewrite (prop_member _ _ Hp), bind_ret. fold picture.
        rewrite Htruthy, Hdata. simpl. reflexivity. }
    simpl. fold requested. f_equal. by rewrite <- !app_assoc.
  - intros Hnot. eexists. split; [| split; [reflexivity |]]; [done |].
    destruct Hnot as [Hfalsy | Hnodata].
    + rewrite Hfalsy. simpl. by rewrite !app_nil_r.
    + destruct (truthy picture); [rewrite Hnodata |]; simpl; by rewrite !app_nil_r.
Qed.

Lemma C4_base64_avatar_dropped_witness :
  ∃ args,
    ud_avatarUrl (pa_user args) = JNull
    ∧ snd (prepare (sampleEnv profileDataPicture (Return tokenEmail) None [])
             sampleEndpoints sampleContext "access" "refresh" sampleParams)
      = Return (args, "web").
Proof.
  destruct (proj1 (C4_base64_avatar_dropped
              (sampleEnv profileDataPicture (Return tokenEmail) None [])
              sampleEndpoints sampleContext "access" "refresh" sampleParams
              profileDataPicture [] tokenEmail _ _ eq_refl eq_refl eq_refl)
              eq_refl eq_refl)
    as (args & Hnull & _ & Hprep & _).
  exists args. split; [exact Hnull |]. rewrite Hprep. reflexivity.
Defined.

(** ** The required fields *)

Lemma bind_lift {A B} (a : A) (k : A → M B) : bind (lift (Return a)) k = k a.
Proof. unfold bind, lift. by destruct (k a). Qed.

Lemma bind_call {A B} ev (a : A) (k : A → M B) :
  bind (call ev (Return a)) k = (ev :: fst (k a), snd (k a)).
Proof. unfold bind, call. by destruct (k a). Qed.

Lemma resolveName_value profile username :
  nullish profile = false →
  resolveName profile username
  = ret (if truthy (member profile "name") then member profile "name"
         else if truthy username then username
         else member profile "username").
Proof.
  intros Hp. unfold resolveName. rewrite (prop_member _ _ Hp), bind_ret.
  destruct (truthy (member profile "name")); [done |].
  destruct (truthy username); [done |]. by rewrite (prop_member _ _ Hp).
Qed.

Lemma resolveProfileId_value profile :
  nullish profile = false →
  resolveProfileId profile
  = ret (if truthy (member profile "sub") then member profile "sub"
         else member profile "id").
Proof.
  intros Hp. unfold resolveProfileId. rewrite (prop_member _ _ Hp), bind_ret.
  destruct (truthy (member profile "sub")); by rewrite ?(prop_member _ _ Hp).
Qed.

(** The claim that either source may supply each required field does not
    hold: a subject that only the decoded token supplies is not used. *)
Lemma C1_token_subject_is_not_used :
  truthy (member profileNoSub "email") = true
  ∧ truthy (member profileNoSub "name") = true
  ∧ truthy (member tokenSubOnly "sub") = true
  ∧ reconcile (sampleEnv profileNoSub (Return tokenSubOnly) None [])
      sampleEndpoints sampleContext profileNoSub tokenSubOnly
    = ([EvGetTeam], Throw (id_missing "https://idp.example.com/userinfo"))
  ∧ callback (sampleEnv profileNoSub (Return tokenSubOnly) None [])
      sampleEndpoints sampleContext "access" "refresh" sampleParams
    = ([EvRequest GET "https://idp.example.com/userinfo" "access"; EvGetTeam],
       DoneErr (id_missing "https://idp.example.com/userinfo")).
Proof. repeat split; reflexivity. Qed.

(** C1, amended.  When the userinfo profile itself supplies a truthy [sub] or
    [id]; the e-mail of the profile, or that of the token when the profile
    has none, is truthy; a name is to be had from the profile's [name], from
    the username claim (of the profile, or of the token when the profile has
    none), or from the profile's [username]; and the steps of the resolver in
    between succeed with a domain that is not empty: then the reconciliation
    succeeds, and e-mail, external user id and display name of the identity
    are truthy, so not empty. *)
Theorem C1_profile_subject_normalizes E endpoints context profile token
    tm client domain trl found h :
  nullish profile = false →
  nullish token = false →
  let pe := member profile "email" in
  let email := if nullish pe then member token "email" else pe in
  let username := resolveUsername E profile token in
  let nm := if truthy (member profile "name") then member profile "name"
            else if truthy username then username
            else member profile "username" in
  let profileId := if truthy (member profile "sub") then member profile "sub"
                   else member profile "id" in
  truthy email = true →
  truthy (member profile "sub") || truthy (member profile "id") = true →
  truthy (member profile "name") || truthy username
    || truthy (member profile "username") = true →
  getTeamFromContext E context = Return tm →
  getClientFromContext E context = Return client →
  parseEmail E email = Return domain →
  domain ≠ "" →
  lookupProvider E tm domain = (trl, Return found) →
  URL_hostname E (authorizationURL endpoints) = Return h →
  ∃ r,
    reconcile E endpoints context profile token = (EvGetTeam :: trl, Return r)
    ∧ r_email r = email ∧ r_profileId r = profileId ∧ r_name r = nm
    ∧ truthy (r_email r) = true
    ∧ truthy (r_profileId r) = true
    ∧ truthy (r_name r) = true.
Proof.
  intros Hp Ht pe email username nm profileId
    Hemail Hsub Hname Hteam Hclient Hdomain Hne Hlookup Hhost.
  assert (truthy profileId = true) as Hid.
  { unfold profileId. destruct (truthy (member profile "sub")) eqn:Hs; [done |].
    by rewrite orb_false_l in Hsub. }
  assert (truthy nm = true) as Hnm.
  { unfold nm. destruct (truthy (member profile "name")) eqn:Hn; [done |].
    destruct (truthy username) eqn:Hu; [done |]. by rewrite !orb_false_l in Hname. }
  assert (nullish email = false) as Hnn by (by destruct email).
  exists {| r_email := email; r_team := tm; r_client := client; r_domain := domain;
            r_authenticationProvider := found;
            r_providerId := match found with Some p => providerId p | None => h end;
            r_subdomain := slugifyDomain E domain;
            r_name := nm; r_profileId := profileId |}.
  split; [| repeat split; simpl; done].
  unfold reconcile.
  rewrite (resolveEmail_value profile token Hp Ht). cbv zeta. fold pe email.
  rewrite Hnn, bind_ret, Hemail. simpl negb. unfold throw_if at 1. rewrite bind_ret.
  rewrite Hteam, bind_call. rewrite Hclient, bind_lift, Hdomain, bind_lift.
  rewrite (bind_Return _ _ _ _ Hlookup). rewrite Hhost, bind_lift.
  apply String.eqb_neq in Hne. rewrite Hne. unfold throw_if at 1. rewrite bind_ret.
  rewrite (resolveName_value _ _ Hp), bind_ret. fold username nm.
  rewrite (resolveProfileId_value _ Hp), bind_ret. fold profileId.
  rewrite Hnm, Hid. simpl. by rewrite app_nil_r.
Qed.

Lemma C1_profile_subject_normalizes_witness :
  ∃ r,
    reconcile (sampleEnv profileFull (Return tokenSubOnly) None [])
      sampleEndpoints sampleContext profileFull tokenSubOnly
    = ([EvGetTeam], Return r)
    ∧ r_email r = JStr "user@acme.io"
    ∧ r_profileId r = JStr "248289761001"
    ∧ r_name r = JStr "Jane Doe"
    ∧ truthy (r_email r) = true
    ∧ truthy (r_profileId r) = true
    ∧ truthy (r_name r) = true.
Proof.
  apply (C1_profile_subject_normalizes
           (sampleEnv profileFull (Return tokenSubOnly) None [])
           sampleEndpoints sampleContext profileFull tokenSubOnly
           None "web" "acme.io" [] None "idp.example.com");
    first [reflexivity | discriminate].
Defined.

Lemma prepare_no_provision E endpoints context accessToken refreshToken params :
  Forall (λ ev, is_provision ev = false)
    (fst (prepare E endpoints context accessToken refreshToken params)).
Proof.
  destruct (prepare_trace E endpoints context accessToken refreshToken params)
    as (rest & -> & Hrest).
  constructor; [done |]. eapply Forall_impl; [exact Hrest |]. intros ? [_ Hp]. exact Hp.
Qed.

(** The claim that a missing required field is found before the resolver
    runs does not hold: with a known team the store has been asked for the
    provider by the time the missing name is found. *)
Lemma C3_name_is_checked_after_lookup :
  callback (sampleEnv profileNoName (Return tokenSubOnly) (Some acmeTeam) [acmeProvider])
    sampleEndpoints sampleContext "access" "refresh" sampleParams
  = ([EvRequest GET "https://idp.example.com/userinfo" "access"; EvGetTeam;
      EvFindOne (exactQuery acmeTeam "acme.io")],
     DoneErr (name_missing "preferred_username" "https://idp.example.com/userinfo"))
  ∧ existsb is_findOne
      (fst (callback
              (sampleEnv profileNoName (Return tokenSubOnly) (Some acmeTeam)
                 [acmeProvider])
              sampleEndpoints sampleContext "access" "refresh" sampleParams))
    = true.
Proof. split; reflexivity. Qed.

(** C3, amended.  For every input, either the provisioner is called, as the
    last event, with an identity whose e-mail, external user id and display
    name are truthy, or the callback hands an error to [done] and the
    provisioner has not been called.  A falsy e-mail is rejected before the
    resolver: nothing has happened but the request and the decoding. *)
Theorem C3_fields_or_failure E endpoints context accessToken refreshToken params :
  ((∃ tr0 args,
       fst (callback E endpoints context accessToken refreshToken params)
       = (tr0 ++ [EvProvision (ip context) args])%list
       ∧ Forall (λ ev, is_provision ev = false) tr0
       ∧ truthy (ud_email (pa_user args)) = true
       ∧ truthy (ad_providerId (pa_authentication args)) = true
       ∧ truthy (ud_name (pa_user args)) = true)
   ∨ (∃ e,
         snd (callback E endpoints context accessToken refreshToken params) = DoneErr e
         ∧ Forall (λ ev, is_provision ev = false)
             (fst (callback E endpoints context accessToken refreshToken params))))
  ∧ (∀ profile trd token email,
        request E (userinfoMethod endpoints) (userInfoURL endpoints) accessToken
        = Return profile →
        decodeToken E params = (trd, Return token) →
        resolveEmail profile token = ([], Return email) →
        truthy email = false →
        callback E endpoints context accessToken refreshToken params
        = (EvRequest (userinfoMethod endpoints) (userInfoURL endpoints) accessToken
             :: trd,
           DoneErr email_missing)
        ∧ Forall (λ ev, is_findOne ev = false ∧ ev ≠ EvGetTeam) trd).
Proof.
  split.
  - pose proof (prepare_no_provision E endpoints context accessToken refreshToken params)
      as Hnp.
    destruct (prepare E endpoints context accessToken refreshToken params)
      as [tr [e | [args client]]] eqn:H; simpl in Hnp.
    + right. exists e. by rewrite (callback_prepare_failed _ _ _ _ _ _ _ _ H).
    + left. exists tr, args. rewrite (callback_prepared _ _ _ _ _ _ _ _ _ H).
      split; [done |]. split; [done |].
      apply prepare_Return_inv in H
        as (profile & trd & token & trr & r & tra & av & _ & _ & Hr & _ & -> & _).
      apply reconcile_Return_inv in Hr
        as (trl & h & _ & _ & Hemail & _ & _ & _ & _ & _ & _ & _ & _ & _ & _ & Hnm & Hid & _).
      by repeat split.
  - intros profile trd token email Hreq Hdec He Hfalsy. split.
    + by apply (callback_email_falsy E endpoints context accessToken refreshToken
                  params profile trd token email).
    + destruct (decodeToken_readable E params trd token Hdec) as [_ Hlog].
      eapply Forall_impl; [exact Hlog |]. by intros [] [=].
Qed.

Lemma C3_fields_or_failure_witness :
  callback (sampleEnv profileNoEmail (Return tokenSubOnly) (Some acmeTeam) [acmeProvider])
    sampleEndpoints sampleContext "access" "refresh" sampleParams
  = ([EvRequest GET "https://idp.example.com/userinfo" "access"], DoneErr email_missing)
  ∧ Forall (λ ev, is_findOne ev = false ∧ ev ≠ EvGetTeam) [].
Proof.
  exact (proj2 (C3_fields_or_failure
                  (sampleEnv profileNoEmail (Return tokenSubOnly) (Some acmeTeam)
                     [acmeProvider])
                  sampleEndpoints sampleContext "access" "refresh" sampleParams)
           profileNoEmail [] tokenSubOnly JNull eq_refl eq_refl eq_refl eq_refl).
Defined.

(** * Further properties of the callback *)

(** ** More on the monad *)

Lemma bind_Throw_inv {A B} (m : M A) (k : A → M B) tr e :
  bind m k = (tr, Throw e) →
  m = (tr, Throw e)
  ∨ ∃ tr1 a tr2, m = (tr1, Return a) ∧ k a = (tr2, Throw e) ∧ tr = (tr1 ++ tr2)%list.
Proof.
  destruct m as [tr1 [e1 | a]]; simpl.
  - intros [= <- <-]. by left.
  - destruct (k a) as [tr2 r] eqn:Hk. intros [= <- ->]. right. by exists tr1, a, tr2.
Qed.

Lemma prop_silent o k : fst (prop o k) = [].
Proof. by destruct o. Qed.

Lemma prop_Throw_inv o k tr e :
  prop o k = (tr, Throw e) → nullish o = true ∧ tr = [] ∧ ∃ msg, e = TypeError msg.
Proof. destruct o; simpl; try discriminate; intros [= <- <-]; eauto. Qed.

Lemma throw_if_Throw_inv c e tr e' :
  throw_if c e = (tr, Throw e') → c = true ∧ tr = [] ∧ e' = e.
Proof. destruct c; simpl; [| discriminate]. by intros [= <- <-]. Qed.

(** ** A run of the reconciliation *)

Section Reconciliation.
Variable E : Env.
Variable endpoints : OIDCEndpoints.
Variable context : Context.

(** Once the e-mail is there and the collaborators of the resolver have
    answered, the outcome is decided by the domain, the name and the user
    id, in that order. *)
Lemma reconcile_run profile token tm client domain trl found h :
  nullish profile = false →
  nullish token = false →
  let pe := member profile "email" in
  let email := if nullish pe then member token "email" else pe in
  let username := resolveUsername E profile token in
  let nm := if truthy (member profile "name") then member profile "name"
            else if truthy username then username
            else member profile "username" in
  let profileId := if truthy (member profile "sub") then member profile "sub"
                   else member profile "id" in
  truthy email = true →
  getTeamFromContext E context = Return tm →
  getClientFromContext E context = Return client →
  parseEmail E email = Return domain →
  lookupProvider E tm domain = (trl, Return found) →
  URL_hostname E (authorizationURL endpoints) = Return h →
  reconcile E endpoints context profile token
  = (EvGetTeam :: trl,
     if String.eqb domain "" then Throw OIDCMalformedUserInfoError
     else if negb (truthy nm)
     then Throw (name_missing (OIDC_USERNAME_CLAIM E) (userInfoURL endpoints))
     else if negb (truthy profileId) then Throw (id_missing (userInfoURL endpoints))
     else Return {| r_email := email; r_team := tm; r_client := client;
                    r_domain := domain; r_authenticationProvider := found;
                    r_providerId :=
                      match found with Some p => providerId p | None => h end;
                    r_subdomain := slugifyDomain E domain;
                    r_name := nm; r_profileId := profileId |}).
Proof.
  intros Hp Ht pe email username nm profileId Hemail Hteam Hclient Hdomain Hlookup Hhost.
  assert (nullish email = false) as Hnn by (by destruct email).
  unfold reconcile.
  rewrite (resolveEmail_value profile token Hp Ht). cbv zeta. fold pe email.
  rewrite Hnn, bind_ret, Hemail. simpl negb. unfold throw_if at 1. rewrite bind_ret.
  rewrite Hteam, bind_call. rewrite Hclient, bind_lift, Hdomain, bind_lift.
  rewrite (bind_Return _ _ _ _ Hlookup). rewrite Hhost, bind_lift.
  destruct (String.eqb domain "") eqn:Hne.
  { simpl. by rewrite app_nil_r. }
  unfold throw_if at 1. rewrite bind_ret.
  rewrite (resolveName_value _ _ Hp), bind_ret. fold username nm.
  rewrite (resolveProfileId_value _ Hp), bind_ret. fold profileId.
  destruct (truthy nm); simpl; [| by rewrite app_nil_r].
  destruct (truthy profileId); simpl; by rewrite app_nil_r.
Qed.
End Reconciliation.

Section Failures.
Variable E : Env.
Variable endpoints : OIDCEndpoints.
Variable context : Context.
Variables accessToken refreshToken : string.
Variable params : Params.

(** A failed reconciliation is the end of the callback. *)
Lemma callback_reconcile_failed profile trd token trr e :
  request E (userinfoMethod endpoints) (userInfoURL endpoints) accessToken
  = Return profile →
  decodeToken E params = (trd, Return token) →
  reconcile E endpoints context profile token = (trr, Throw e) →
  callback E endpoints context accessToken refreshToken params
  = ((EvRequest (userinfoMethod endpoints) (userInfoURL endpoints) accessToken
        :: trd ++ trr)%list,
     DoneErr e).
Proof.
  intros Hreq Hdec Hr. apply callback_prepare_failed.
  rewrite (prepare_fetched _ _ _ _ _ _ _ _ _ Hreq Hdec). unfold describe.
  by rewrite (bind_Throw _ _ _ _ Hr).
Qed.

(** The authorization URL is parsed whatever the lookup found. *)
Lemma reconcile_bad_url profile token tm client domain trl found e :
  nullish profile = false →
  nullish token = false →
  let pe := member profile "email" in
  let email := if nullish pe then member token "email" else pe in
  truthy email = true →
  getTeamFromContext E context = Return tm →
  getClientFromContext E context = Return client →
  parseEmail E email = Return domain →
  lookupProvider E tm domain = (trl, Return found) →
  URL_hostname E (authorizationURL endpoints) = Throw e →
  reconcile E endpoints context profile token = (EvGetTeam :: trl, Throw e).
Proof.
  intros Hp Ht pe email Hemail Hteam Hclient Hdomain Hlookup Hhost.
  assert (nullish email = false) as Hnn by (by destruct email).
  unfold reconcile.
  rewrite (resolveEmail_value profile token Hp Ht). cbv zeta. fold pe email.
  rewrite Hnn, bind_ret, Hemail. simpl negb. unfold throw_if at 1. rewrite bind_ret.
  rewrite Hteam, bind_call. rewrite Hclient, bind_lift, Hdomain, bind_lift.
  rewrite (bind_Return _ _ _ _ Hlookup). rewrite Hhost. simpl. by rewrite app_nil_r.
Qed.
End Failures.

(** ** The domain and the authorization URL *)

(** X1. When the team and the client have been read, [parseEmail] returns
    the empty domain for the e-mail, the store has answered the lookup for
    that empty domain and the authorization URL has parsed, the callback
    ends with [OIDCMalformedUserInfoError], whatever name and user id the
    profile holds.  The check of the domain comes after all of these: the
    team has been read and the store has been asked by then, and a failure
    of one of them ends the callback before the domain is looked at. *)
Theorem empty_domain_is_malformed E endpoints context accessToken refreshToken params
    profile trd token tm client trl found h :
  request E (userinfoMethod endpoints) (userInfoURL endpoints) accessToken
  = Return profile →
  decodeToken E params = (trd, Return token) →
  nullish profile = false →
  let pe := member profile "email" in
  let email := if nullish pe then member token "email" else pe in
  truthy email = true →
  getTeamFromContext E context = Return tm →
  getClientFromContext E context = Return client →
  parseEmail E email = Return "" →
  lookupProvider E tm "" = (trl, Return found) →
  URL_hostname E (authorizationURL endpoints) = Return h →
  callback E endpoints context accessToken refreshToken params
  = ((EvRequest (userinfoMethod endpoints) (userInfoURL endpoints) accessToken
        :: trd ++ EvGetTeam :: trl)%list,
     DoneErr OIDCMalformedUserInfoError).
Proof.
  intros Hreq Hdec Hp pe email Hemail Hteam Hclient Hdomain Hlookup Hhost.
  destruct (decodeToken_readable E params trd token Hdec) as [Ht _].
  apply (callback_reconcile_failed E endpoints context accessToken refreshToken params
           profile trd token _ _ Hreq Hdec).
  by rewrite (reconcile_run E endpoints context profile token tm client "" trl found h
                Hp Ht Hemail Hteam Hclient Hdomain Hlookup Hhost).
Qed.

Lemma empty_domain_is_malformed_witness :
  callback (sampleEnv profileNoDomain (Return tokenSubOnly) (Some acmeTeam) [acmeProvider])
    sampleEndpoints sampleContext "access" "refresh" sampleParams
  = ([EvRequest GET "https://idp.example.com/userinfo" "access"; EvGetTeam;
      EvFindOne (exactQuery acmeTeam ""); EvFindOne (teamQuery acmeTeam)],
     DoneErr OIDCMalformedUserInfoError).
Proof.
  exact (empty_domain_is_malformed
           (sampleEnv profileNoDomain (Return tokenSubOnly) (Some acmeTeam)
              [acmeProvider])
           sampleEndpoints sampleContext "access" "refresh" sampleParams
           profileNoDomain [] tokenSubOnly (Some acmeTeam) "web"
           [EvFindOne (exactQuery acmeTeam ""); EvFindOne (teamQuery acmeTeam)]
           (Some acmeProvider) "idp.example.com"
           eq_refl eq_refl eq_refl eq_refl eq_refl eq_refl eq_refl eq_refl eq_refl).
Defined.

(** X2. An authorization URL that does not parse ends the callback with the
    error of the URL constructor even when the lookup found a stored
    provider, whose providerId would have been used in place of the
    hostname. *)
Theorem bad_authorization_url_fails E endpoints context accessToken refreshToken params
    profile trd token tm client domain trl p e :
  request E (userinfoMethod endpoints) (userInfoURL endpoints) accessToken
  = Return profile →
  decodeToken E params = (trd, Return token) →
  nullish profile = false →
  let pe := member profile "email" in
  let email := if nullish pe then member token "email" else pe in
  truthy email = true →
  getTeamFromContext E context = Return tm →
  getClientFromContext E context = Return client →
  parseEmail E email = Return domain →
  lookupProvider E tm domain = (trl, Return (Some p)) →
  URL_hostname E (authorizationURL endpoints) = Throw e →
  callback E endpoints context accessToken refreshToken params
  = ((EvRequest (userinfoMethod endpoints) (userInfoURL endpoints) accessToken
        :: trd ++ EvGetTeam :: trl)%list,
     DoneErr e).
Proof.
  intros Hreq Hdec Hp pe email Hemail Hteam Hclient Hdomain Hlookup Hhost.
  destruct (decodeToken_readable E params trd token Hdec) as [Ht _].
  apply (callback_reconcile_failed E endpoints context accessToken refreshToken params
           profile trd token _ _ Hreq Hdec).
  by apply (reconcile_bad_url E endpoints context profile token tm client domain trl
              (Some p) e).
Qed.

Lemma bad_authorization_url_fails_witness :
  callback (sampleEnv profileFull (Return tokenSubOnly) (Some acmeTeam) [acmeProvider])
    brokenEndpoints sampleContext "access" "refresh" sampleParams
  = ([EvRequest GET "https://idp.example.com/userinfo" "access"; EvGetTeam;
      EvFindOne (exactQuery acmeTeam "acme.io")],
     DoneErr (TypeError "Invalid URL")).
Proof.
  exact (bad_authorization_url_fails
           (sampleEnv profileFull (Return tokenSubOnly) (Some acmeTeam) [acmeProvider])
           brokenEndpoints sampleContext "access" "refresh" sampleParams
           profileFull [] tokenSubOnly (Some acmeTeam) "web" "acme.io"
           [EvFindOne (exactQuery acmeTeam "acme.io")] acmeProvider
           (TypeError "Invalid URL")
           eq_refl eq_refl eq_refl eq_refl eq_refl eq_refl eq_refl eq_refl eq_refl).
Defined.

(** ** Name and user id *)

(** X3. The name is checked before the user id: when the resolver steps have
    succeeded and name or user id is falsy, the callback ends with the error
    about the name if the name is falsy, also when the user id is missing as
    well, and with the error about the user id otherwise. *)
Theorem name_is_checked_before_id E endpoints context accessToken refreshToken params
    profile trd token tm client domain trl found h :
  request E (userinfoMethod endpoints) (userInfoURL endpoints) accessToken
  = Return profile →
  decodeToken E params = (trd, Return token) →
  nullish profile = false →
  let pe := member profile "email" in
  let email := if nullish pe then member token "email" else pe in
  let username := resolveUsername E profile token in
  let nm := if truthy (member profile "name") then member profile "name"
            else if truthy username then username
            else member profile "username" in
  let profileId := if truthy (member profile "sub") then member profile "sub"
                   else member profile "id" in
  truthy email = true →
  getTeamFromContext E context = Return tm →
  getClientFromContext E context = Return client →
  parseEmail E email = Return domain →
  domain ≠ "" →
  lookupProvider E tm domain = (trl, Return found) →
  URL_hostname E (authorizationURL endpoints) = Return h →
  truthy nm && truthy profileId = false →
  callback E endpoints context accessToken refreshToken params
  = ((EvRequest (userinfoMethod endpoints) (userInfoURL endpoints) accessToken
        :: trd ++ EvGetTeam :: trl)%list,
     DoneErr (if truthy nm then id_missing (userInfoURL endpoints)
              else name_missing (OIDC_USERNAME_CLAIM E) (userInfoURL endpoints))).
Proof.
  intros Hreq Hdec Hp pe email username nm profileId
    Hemail Hteam Hclient Hdomain Hne Hlookup Hhost Hmiss.
  destruct (decodeToken_readable E params trd token Hdec) as [Ht _].
  apply (callback_reconcile_failed E endpoints context accessToken refreshToken params
           profile trd token _ _ Hreq Hdec).
  rewrite (reconcile_run E endpoints context profile token tm client domain trl found h
             Hp Ht Hemail Hteam Hclient Hdomain Hlookup Hhost).
  apply String.eqb_neq in Hne. rewrite Hne. fold username nm profileId.
  destruct (truthy nm); simpl in *; [by rewrite Hmiss | done].
Qed.

Lemma name_is_checked_before_id_witness :
  callback (sampleEnv profileEmailOnly (Return tokenSubOnly) None [])
    sampleEndpoints sampleContext "access" "refresh" sampleParams
  = ([EvRequest GET "https://idp.example.com/userinfo" "access"; EvGetTeam],
     DoneErr (name_missing "preferred_username" "https://idp.example.com/userinfo")).
Proof.
  apply (name_is_checked_before_id
           (sampleEnv profileEmailOnly (Return tokenSubOnly) None [])
           sampleEndpoints sampleContext "access" "refresh" sampleParams
           profileEmailOnly [] tokenSubOnly None "web" "acme.io" [] None
           "idp.example.com");
    first [reflexivity | discriminate].
Defined.

(** X4. A username claim that the profile holds but that is falsy, the empty
    string for one, keeps the token's claim from being read: [??] falls back
    only for [null] and [undefined].  With no name and no [username] in the
    profile the callback then ends with the error about the name, whatever
    the token offers. *)
Theorem falsy_profile_username_hides_token E endpoints context accessToken
    refreshToken params profile trd token tm client domain trl found h :
  request E (userinfoMethod endpoints) (userInfoURL endpoints) accessToken
  = Return profile →
  decodeToken E params = (trd, Return token) →
  nullish profile = false →
  let pe := member profile "email" in
  let email := if nullish pe then member token "email" else pe in
  let claimed := get E profile (OIDC_USERNAME_CLAIM E) in
  nullish claimed = false →
  truthy claimed = false →
  truthy (member profile "name") = false →
  truthy (member profile "username") = false →
  truthy email = true →
  getTeamFromContext E context = Return tm →
  getClientFromContext E context = Return client →
  parseEmail E email = Return domain →
  domain ≠ "" →
  lookupProvider E tm domain = (trl, Return found) →
  URL_hostname E (authorizationURL endpoints) = Return h →
  resolveUsername E profile token = claimed
  ∧ callback E endpoints context accessToken refreshToken params
    = ((EvRequest (userinfoMethod endpoints) (userInfoURL endpoints) accessToken
          :: trd ++ EvGetTeam :: trl)%list,
       DoneErr (name_missing (OIDC_USERNAME_CLAIM E) (userInfoURL endpoints))).
Proof.
  intros Hreq Hdec Hp pe email claimed Hnn Hfalsy Hname Huser
    Hemail Hteam Hclient Hdomain Hne Hlookup Hhost.
  assert (resolveUsername E profile token = claimed) as Hu.
  { unfold resolveUsername. fold claimed. by rewrite Hnn. }
  split; [exact Hu |].
  destruct (decodeToken_readable E params trd token Hdec) as [Ht _].
  apply (callback_reconcile_failed E endpoints context accessToken refreshToken params
           profile trd token _ _ Hreq Hdec).
  rewrite (reconcile_run E endpoints context profile token tm client domain trl found h
             Hp Ht Hemail Hteam Hclient Hdomain Hlookup Hhost).
  apply String.eqb_neq in Hne. rewrite Hne, Hu, Hname, Hfalsy, Huser. done.
Qed.

Lemma falsy_profile_username_hides_token_witness :
  truthy (lodash_get tokenUsername "preferred_username") = true
  ∧ resolveUsername
      (sampleEnv profileEmptyUsername (Return tokenUsername) None [])
      profileEmptyUsername tokenUsername
    = JStr ""
  ∧ callback (sampleEnv profileEmptyUsername (Return tokenUsername) None [])
      sampleEndpoints sampleContext "access" "refresh" sampleParams
    = ([EvRequest GET "https://idp.example.com/userinfo" "access"; EvGetTeam],
       DoneErr (name_missing "preferred_username" "https://idp.example.com/userinfo")).
Proof.
  split; [reflexivity |].
  apply (falsy_profile_username_hides_token
           (sampleEnv profileEmptyUsername (Return tokenUsername) None [])
           sampleEndpoints sampleContext "access" "refresh" sampleParams
           profileEmptyUsername [] tokenUsername None "web" "acme.io" [] None
           "idp.example.com");
    first [reflexivity | discriminate].
Defined.

(** X5. The case the decoding of the token is there for: the userinfo
    profile holds the subject and neither e-mail nor any name, the token
    holds e-mail and username claim.  The reconciliation then succeeds with
    the e-mail and the username of the token and the subject of the
    profile. *)
Theorem token_completes_bare_profile E endpoints context profile token
    tm client domain trl found h :
  nullish profile = false →
  nullish token = false →
  nullish (member profile "email") = true →
  truthy (member profile "name") = false →
  nullish (get E profile (OIDC_USERNAME_CLAIM E)) = true →
  truthy (member profile "sub") = true →
  truthy (member token "email") = true →
  truthy (get E token (OIDC_USERNAME_CLAIM E)) = true →
  getTeamFromContext E context = Return tm →
  getClientFromContext E context = Return client →
  parseEmail E (member token "email") = Return domain →
  domain ≠ "" →
  lookupProvider E tm domain = (trl, Return found) →
  URL_hostname E (authorizationURL endpoints) = Return h →
  ∃ r,
    reconcile E endpoints context profile token = (EvGetTeam :: trl, Return r)
    ∧ r_email r = member token "email"
    ∧ r_name r = get E token (OIDC_USERNAME_CLAIM E)
    ∧ r_profileId r = member profile "sub"
    ∧ r_domain r = domain.
Proof.
  intros Hp Ht Hpe Hname Hclaim Hsub Hte Htu Hteam Hclient Hdomain Hne Hlookup Hhost.
  pose proof (reconcile_run E endpoints context profile token tm client domain trl
                found h Hp Ht) as Hrun.
  cbv zeta in Hrun. rewrite Hpe in Hrun.
  specialize (Hrun Hte Hteam Hclient Hdomain Hlookup Hhost).
  unfold resolveUsername in Hrun. rewrite Hclaim, Hname in Hrun.
  apply String.eqb_neq in Hne. rewrite Hne in Hrun.
  rewrite !Htu, !Hsub in Hrun. simpl in Hrun.
  eexists. split; [exact Hrun |]. done.
Qed.

Lemma token_completes_bare_profile_witness :
  ∃ r,
    reconcile (sampleEnv profileSubOnly (Return tokenAdfs) None [])
      sampleEndpoints sampleContext profileSubOnly tokenAdfs
    = ([EvGetTeam], Return r)
    ∧ r_email r = JStr "user@acme.io"
    ∧ r_name r = JStr "jdoe"
    ∧ r_profileId r = JStr "248289761001"
    ∧ r_domain r = "acme.io".
Proof.
  apply (token_completes_bare_profile
           (sampleEnv profileSubOnly (Return tokenAdfs) None [])
           sampleEndpoints sampleContext profileSubOnly tokenAdfs
           None "web" "acme.io" [] None "idp.example.com");
    first [reflexivity | discriminate].
Defined.

(** ** What the callback reads *)

Section Reads.
Variable E : Env.
Variable endpoints : OIDCEndpoints.
Variable context : Context.
Variables accessToken refreshToken : string.
Variable params : Params.

(** The descriptors depend on profile and token through the e-mail, the
    username and five more members of the profile. *)
Lemma describe_ext profile1 token1 profile2 token2 :
  nullish profile1 = false → nullish token1 = false →
  nullish profile2 = false → nullish token2 = false →
  (if nullish (member profile1 "email") then member token1 "email"
   else member profile1 "email")
  = (if nullish (member profile2 "email") then member token2 "email"
     else member profile2 "email") →
  resolveUsername E profile1 token1 = resolveUsername E profile2 token2 →
  member profile1 "name" = member profile2 "name" →
  member profile1 "username" = member profile2 "username" →
  member profile1 "sub" = member profile2 "sub" →
  member profile1 "id" = member profile2 "id" →
  member profile1 "picture" = member profile2 "picture" →
  describe E endpoints context accessToken refreshToken params profile1 token1
  = describe E endpoints context accessToken refreshToken params profile2 token2.
Proof.
  intros Hp1 Ht1 Hp2 Ht2 Hemail Huser Hname Husername Hsub Hid Hpic.
  unfold describe, reconcile, filterAvatar.
  rewrite (resolveEmail_value _ _ Hp1 Ht1), (resolveEmail_value _ _ Hp2 Ht2).
  rewrite (resolveName_value _ _ Hp1), (resolveName_value _ _ Hp2).
  rewrite (resolveProfileId_value _ Hp1), (resolveProfileId_value _ Hp2).
  rewrite (prop_member _ "picture" Hp1), (prop_member _ "picture" Hp2).
  cbv zeta. by rewrite Hemail, Huser, Hname, Husername, Hsub, Hid, Hpic.
Qed.

Lemma callback_fetched profile trd token :
  request E (userinfoMethod endpoints) (userInfoURL endpoints) accessToken
  = Return profile →
  decodeToken E params = (trd, Return token) →
  callback E endpoints context accessToken refreshToken params
  = match describe E endpoints context accessToken refreshToken params profile token with
    | (tr, Throw e) =>
        ((EvRequest (userinfoMethod endpoints) (userInfoURL endpoints) accessToken
            :: trd ++ tr)%list, DoneErr e)
    | (tr, Return (args, client)) =>
        ((EvRequest (userinfoMethod endpoints) (userInfoURL endpoints) accessToken
            :: trd ++ tr ++ [EvProvision (ip context) args])%list,
         match accountProvisioner E (ip context) args with
         | Return result => DoneOk (user result) result client
         | Throw e => DoneErr e
         end)
    end.
Proof.
  intros Hreq Hdec.
  pose proof (prepare_fetched E endpoints context accessToken refreshToken params
                profile trd token Hreq Hdec) as Hprep.
  destruct (describe E endpoints context accessToken refreshToken params profile token)
    as [tr [e | [args client]]]; simpl in Hprep.
  - by rewrite (callback_prepare_failed _ _ _ _ _ _ _ _ Hprep).
  - rewrite (callback_prepared _ _ _ _ _ _ _ _ _ Hprep). simpl.
    by rewrite <- !app_assoc.
Qed.
End Reads.

(** X6. Of the decoded token the callback reads the e-mail, and that only
    when the profile has none, and the username claim, and that only when
    the profile has none.  Two token payloads that agree on what is read
    give the same events and the same call of [done]: a subject, a name or
    any other claim of the token changes nothing. *)
Theorem token_read_only_as_fallback E endpoints context accessToken refreshToken params
    profile (claims1 claims2 : gmap string JsVal) :
  request E (userinfoMethod endpoints) (userInfoURL endpoints) accessToken
  = Return profile →
  nullish (member profile "email") = false
  ∨ member (JObj claims1) "email" = member (JObj claims2) "email" →
  nullish (get E profile (OIDC_USERNAME_CLAIM E)) = false
  ∨ get E (JObj claims1) (OIDC_USERNAME_CLAIM E)
    = get E (JObj claims2) (OIDC_USERNAME_CLAIM E) →
  callback (with_decoder E (λ _, Return (JObj claims1)))
    endpoints context accessToken refreshToken params
  = callback (with_decoder E (λ _, Return (JObj claims2)))
      endpoints context accessToken refreshToken params.
Proof.
  intros Hreq Hemail Huser.
  set (E1 := with_decoder E (λ _, Return (JObj claims1))).
  set (E2 := with_decoder E (λ _, Return (JObj claims2))).
  rewrite (callback_fetched E1 endpoints context accessToken refreshToken params
             profile [] (JObj claims1) Hreq eq_refl).
  rewrite (callback_fetched E2 endpoints context accessToken refreshToken params
             profile [] (JObj claims2) Hreq eq_refl).
  change (accountProvisioner E1) with (accountProvisioner E).
  change (accountProvisioner E2) with (accountProvisioner E).
  change (describe E1) with (describe E). change (describe E2) with (describe E).
  destruct (nullish profile) eqn:Hp.
  - unfold describe, reconcile, resolveEmail. by destruct profile.
  - rewrite (describe_ext E endpoints context accessToken refreshToken params
               profile (JObj claims1) profile (JObj claims2)); try done.
    + destruct (nullish (member profile "email")); [| done].
      by destruct Hemail.
    + unfold resolveUsername.
      destruct (nullish (get E profile (OIDC_USERNAME_CLAIM E))); [| done].
      by destruct Huser.
Qed.

Lemma token_read_only_as_fallback_witness :
  callback (with_decoder (sampleEnv profileFull (Return JNull) None [])
              (λ _, Return (JObj (list_to_map [("sub", JStr "someone-else");
                                               ("name", JStr "Mallory")]))))
    sampleEndpoints sampleContext "access" "refresh" sampleParams
  = callback (with_decoder (sampleEnv profileFull (Return JNull) None [])
                (λ _, Return (JObj ∅)))
      sampleEndpoints sampleContext "access" "refresh" sampleParams.
Proof.
  apply (token_read_only_as_fallback (sampleEnv profileFull (Return JNull) None [])
           sampleEndpoints sampleContext "access" "refresh" sampleParams profileFull);
    [reflexivity | left; reflexivity | right; reflexivity].
Defined.

(** X7. Of the userinfo profile the callback reads [email], [name],
    [username], [sub], [id], [picture] and the username claim.  Two profiles
    that agree on these give the same events and the same call of [done]:
    no other claim of the profile changes anything. *)
Theorem profile_read_through_seven_claims E endpoints context accessToken refreshToken
    params (profile1 profile2 : JsVal) :
  nullish profile1 = false →
  nullish profile2 = false →
  member profile1 "email" = member profile2 "email" →
  member profile1 "name" = member profile2 "name" →
  member profile1 "username" = member profile2 "username" →
  member profile1 "sub" = member profile2 "sub" →
  member profile1 "id" = member profile2 "id" →
  member profile1 "picture" = member profile2 "picture" →
  get E profile1 (OIDC_USERNAME_CLAIM E) = get E profile2 (OIDC_USERNAME_CLAIM E) →
  callback (with_request E (λ _ _ _, Return profile1))
    endpoints context accessToken refreshToken params
  = callback (with_request E (λ _ _ _, Return profile2))
      endpoints context accessToken refreshToken params.
Proof.
  intros Hp1 Hp2 Hemail Hname Husername Hsub Hid Hpic Hclaim.
  set (E1 := with_request E (λ _ _ _, Return profile1)).
  set (E2 := with_request E (λ _ _ _, Return profile2)).
  destruct (decodeToken_returns E params) as (trd & token & Hdec & Ht).
  rewrite (callback_fetched E1 endpoints context accessToken refreshToken params
             profile1 trd token eq_refl Hdec).
  rewrite (callback_fetched E2 endpoints context accessToken refreshToken params
             profile2 trd token eq_refl Hdec).
  change (accountProvisioner E1) with (accountProvisioner E).
  change (accountProvisioner E2) with (accountProvisioner E).
  change (describe E1) with (describe E). change (describe E2) with (describe E).
  rewrite (describe_ext E endpoints context accessToken refreshToken params
             profile1 token profile2 token); try done.
  - by rewrite Hemail.
  - unfold resolveUsername. by rewrite Hclaim.
Qed.

Lemma profile_read_through_seven_claims_witness :
  callback (with_request (sampleEnv JNull (Return tokenEmail) None [])
              (λ _ _ _, Return profileExtra))
    sampleEndpoints sampleContext "access" "refresh" sampleParams
  = callback (with_request (sampleEnv JNull (Return tokenEmail) None [])
                (λ _ _ _, Return profileFull))
      sampleEndpoints sampleContext "access" "refresh" sampleParams.
Proof.
  apply (profile_read_through_seven_claims
           (sampleEnv JNull (Return tokenEmail) None [])
           sampleEndpoints sampleContext "access" "refresh" sampleParams
           profileExtra profileFull);
    reflexivity.
Defined.

(** ** Early ends *)

(** X8. When the userinfo request fails, its error goes to [done] at once:
    the token is not decoded, nothing is logged, the team is not read and
    the store is not asked. *)
Theorem failed_request_ends_callback E endpoints context accessToken refreshToken
    params e :
  request E (userinfoMethod endpoints) (userInfoURL endpoints) accessToken = Throw e →
  callback E endpoints context accessToken refreshToken params
  = ([EvRequest (userinfoMethod endpoints) (userInfoURL endpoints) accessToken],
     DoneErr e).
Proof.
  intros Hreq. apply callback_prepare_failed. by apply prepare_not_fetched.
Qed.

Lemma failed_request_ends_callback_witness :
  callback (with_request (sampleEnv profileFull (Return tokenEmail) None [])
              (λ _ _ _, Throw (ExternalError "connect ECONNREFUSED")))
    sampleEndpoints sampleContext "access" "refresh" sampleParams
  = ([EvRequest GET "https://idp.example.com/userinfo" "access"],
     DoneErr (ExternalError "connect ECONNREFUSED")).
Proof.
  exact (failed_request_ends_callback
           (with_request (sampleEnv profileFull (Return tokenEmail) None [])
              (λ _ _ _, Throw (ExternalError "connect ECONNREFUSED")))
           sampleEndpoints sampleContext "access" "refresh" sampleParams
           (ExternalError "connect ECONNREFUSED") eq_refl).
Defined.

(** X9. A userinfo response that is [null] ends the callback with a
    [TypeError], not with the error about the e-mail, and before the team is
    read: the first read of the profile throws. *)
Theorem null_profile_is_a_type_error E endpoints context accessToken refreshToken
    params profile trd token :
  request E (userinfoMethod endpoints) (userInfoURL endpoints) accessToken
  = Return profile →
  decodeToken E params = (trd, Return token) →
  nullish profile = true →
  ∃ msg,
    callback E endpoints context accessToken refreshToken params
    = (EvRequest (userinfoMethod endpoints) (userInfoURL endpoints) accessToken :: trd,
       DoneErr (TypeError msg))
    ∧ TypeError msg ≠ email_missing.
Proof.
  intros Hreq Hdec Hnull.
  assert (∃ msg, reconcile E endpoints context profile token = ([], Throw (TypeError msg)))
    as [msg Hr].
  { unfold reconcile, resolveEmail. destruct profile; try discriminate; by eexists. }
  exists msg. split; [| done].
  rewrite (callback_reconcile_failed E endpoints context accessToken refreshToken params
             profile trd token [] _ Hreq Hdec Hr).
  by rewrite app_nil_r.
Qed.

Lemma null_profile_is_a_type_error_witness :
  ∃ msg,
    callback (sampleEnv JNull (Return tokenEmail) None [])
      sampleEndpoints sampleContext "access" "refresh" sampleParams
    = ([EvRequest GET "https://idp.example.com/userinfo" "access"],
       DoneErr (TypeError msg))
    ∧ TypeError msg ≠ email_missing.
Proof.
  exact (null_profile_is_a_type_error (sampleEnv JNull (Return tokenEmail) None [])
           sampleEndpoints sampleContext "access" "refresh" sampleParams
           JNull [] tokenEmail eq_refl eq_refl eq_refl).
Defined.

(** X10. The avatar filter can end the callback: when the picture is truthy
    and [isBase64Url] throws on it, that error goes to [done] and the
    provisioner is not called, although e-mail, name and user id had passed
    their checks. *)
Theorem throwing_avatar_test_fails E endpoints context accessToken refreshToken params
    profile trd token trr r e :
  request E (userinfoMethod endpoints) (userInfoURL endpoints) accessToken
  = Return profile →
  decodeToken E params = (trd, Return token) →
  reconcile E endpoints context profile token = (trr, Return r) →
  truthy (member profile "picture") = true →
  isBase64Url E (member profile "picture") = Throw e →
  callback E endpoints context accessToken refreshToken params
  = ((EvRequest (userinfoMethod endpoints) (userInfoURL endpoints) accessToken
        :: trd ++ trr)%list,
     DoneErr e).
Proof.
  intros Hreq Hdec Hr Htruthy Hthrow.
  pose proof (reconcile_Return_inv E endpoints context profile token trr r Hr)
    as (_ & _ & Hp & _).
  apply callback_prepare_failed.
  rewrite (prepare_fetched _ _ _ _ _ _ _ _ _ Hreq Hdec).
  unfold describe. rewrite (bind_Return _ _ _ _ Hr).
  unfold filterAvatar. rewrite (prop_member _ _ Hp), bind_ret.
  rewrite Htruthy, Hthrow. simpl. by rewrite app_nil_r.
Qed.

Lemma throwing_avatar_test_fails_witness :
  callback
    (with_isBase64Url
       (sampleEnv (obj [("sub", JStr "248289761001"); ("name", JStr "Jane Doe");
                        ("email", JStr "user@acme.io"); ("picture", JNum 7)])
          (Return tokenEmail) None [])
       (λ url, match url with
               | JStr _ => Return false
               | _ => Throw (TypeError "url.match is not a function")
               end))
    sampleEndpoints sampleContext "access" "refresh" sampleParams
  = ([EvRequest GET "https://idp.example.com/userinfo" "access"; EvGetTeam],
     DoneErr (TypeError "url.match is not a function")).
Proof.
  exact (throwing_avatar_test_fails
           (with_isBase64Url
              (sampleEnv (obj [("sub", JStr "248289761001"); ("name", JStr "Jane Doe");
                               ("email", JStr "user@acme.io"); ("picture", JNum 7)])
                 (Return tokenEmail) None [])
              (λ url, match url with
                      | JStr _ => Return false
                      | _ => Throw (TypeError "url.match is not a function")
                      end))
           sampleEndpoints sampleContext "access" "refresh" sampleParams
           _ [] tokenEmail [EvGetTeam] _ _ eq_refl eq_refl eq_refl eq_refl eq_refl).
Defined.

(** ** The provisioning call *)

Section Provisioning.
Variable E : Env.
Variable endpoints : OIDCEndpoints.
Variable context : Context.
Variables accessToken refreshToken : string.
Variable params : Params.

(** A provisioning event in the trace of the callback is its last event and
    carries the descriptors that [prepare] returned. *)
Lemma provision_event_inv ip0 args :
  In (EvProvision ip0 args)
     (fst (callback E endpoints context accessToken refreshToken params)) →
  ∃ tr client,
    prepare E endpoints context accessToken refreshToken params
    = (tr, Return (args, client))
    ∧ ip0 = ip context.
Proof.
  pose proof (prepare_no_provision E endpoints context accessToken refreshToken params)
    as Hnp.
  destruct (prepare E endpoints context accessToken refreshToken params)
    as [tr [e | [args' client]]] eqn:H; simpl in Hnp.
  - rewrite (callback_prepare_failed _ _ _ _ _ _ _ _ H). simpl. intros Hin.
    rewrite Forall_forall in Hnp. apply list_elem_of_In in Hin.
    by specialize (Hnp _ Hin).
  - rewrite (callback_prepared _ _ _ _ _ _ _ _ _ H). simpl. intros Hin.
    apply in_app_or in Hin as [Hin | [Heq | []]].
    + rewrite Forall_forall in Hnp. apply list_elem_of_In in Hin.
      by specialize (Hnp _ Hin).
    + injection Heq as <- <-. by exists tr, client.
Qed.
End Provisioning.

(** X11. The callback reports success only after the provisioner has
    returned: the provisioner was called once, as the last event; the user
    handed to [done] is the user of its result, the result is handed on whole
    and the client attached to it is the client of the request. *)
Theorem success_comes_from_provisioner E endpoints context accessToken refreshToken
    params tr u result client :
  callback E endpoints context accessToken refreshToken params
  = (tr, DoneOk u result client) →
  ∃ tr0 args,
    tr = (tr0 ++ [EvProvision (ip context) args])%list
    ∧ Forall (λ ev, is_provision ev = false) tr0
    ∧ accountProvisioner E (ip context) args = Return result
    ∧ u = user result
    ∧ getClientFromContext E context = Return client.
Proof.
  intros Hcb.
  pose proof (prepare_no_provision E endpoints context accessToken refreshToken params)
    as Hnp.
  destruct (prepare E endpoints context accessToken refreshToken params)
    as [tr0 [e | [args client']]] eqn:H; simpl in Hnp.
  - by rewrite (callback_prepare_failed _ _ _ _ _ _ _ _ H) in Hcb.
  - rewrite (callback_prepared _ _ _ _ _ _ _ _ _ H) in Hcb.
    destruct (accountProvisioner E (ip context) args) as [e | result'] eqn:Hprov;
      [discriminate |].
    injection Hcb as <- <- <- <-.
    apply prepare_Return_inv in H
      as (profile & trd & token & trr & r & tra & av & _ & _ & Hr & _ & _ & -> & _).
    apply reconcile_Return_inv in Hr as (trl & h & _ & _ & _ & _ & Hclient & _).
    by exists tr0, args.
Qed.

Lemma success_comes_from_provisioner_witness :
  ∃ tr0 args,
    [EvRequest GET "https://idp.example.com/userinfo" "access"; EvGetTeam;
     EvProvision "203.0.113.7"
       (provisionArgs (sampleEnv profileFull (Return tokenEmail) None [])
          "access" "refresh" sampleParams
          {| r_email := JStr "user@acme.io"; r_team := None; r_client := "web";
             r_domain := "acme.io"; r_authenticationProvider := None;
             r_providerId := "idp.example.com"; r_subdomain := "acme";
             r_name := JStr "Jane Doe"; r_profileId := JStr "248289761001" |}
          JUndefined)]
    = (tr0 ++ [EvProvision (ip sampleContext) args])%list
    ∧ Forall (λ ev, is_provision ev = false) tr0
    ∧ accountProvisioner (sampleEnv profileFull (Return tokenEmail) None [])
        (ip sampleContext) args
      = Return {| user := "user-1"; team := "team-1";
                  isNewUser := true; isNewTeam := true |}
    ∧ "user-1" = user {| user := "user-1"; team := "team-1";
                         isNewUser := true; isNewTeam := true |}
    ∧ getClientFromContext (sampleEnv profileFull (Return tokenEmail) None [])
        sampleContext = Return "web".
Proof.
  exact (success_comes_from_provisioner
           (sampleEnv profileFull (Return tokenEmail) None [])
           sampleEndpoints sampleContext "access" "refresh" sampleParams
           _ _ _ _ eq_refl).
Defined.

(** X12. Whenever the provisioner is called, it is called with the ip of the
    request and with descriptors that fit together: access token, refresh
    token and lifetime are those the callback was given; the scopes are the
    configured scopes cut at the spaces; the provider is named after the
    plugin; the team is named after the application, its domain is the
    domain of the user's e-mail and is not empty, its subdomain is the slug
    of that domain, and its id is the id of the team of the request, if the
    request has one. *)
Theorem provisioned_descriptors_fit E endpoints context accessToken refreshToken
    params ip0 args :
  In (EvProvision ip0 args)
     (fst (callback E endpoints context accessToken refreshToken params)) →
  ip0 = ip context
  ∧ ad_accessToken (pa_authentication args) = accessToken
  ∧ ad_refreshToken (pa_authentication args) = refreshToken
  ∧ ad_expiresIn (pa_authentication args) = expires_in params
  ∧ ad_scopes (pa_authentication args) = split_on " " (OIDC_SCOPES E)
  ∧ pd_name (pa_authenticationProvider args) = config_id E
  ∧ td_name (pa_team args) = APP_NAME E
  ∧ parseEmail E (ud_email (pa_user args)) = Return (td_domain (pa_team args))
  ∧ td_domain (pa_team args) ≠ ""
  ∧ td_subdomain (pa_team args) = slugifyDomain E (td_domain (pa_team args))
  ∧ ∃ tm, getTeamFromContext E context = Return tm
          ∧ td_teamId (pa_team args) = team_id <$> tm.
Proof.
  intros Hin. apply provision_event_inv in Hin as (tr & client & H & ->).
  apply prepare_Return_inv in H
    as (profile & trd & token & trr & r & tra & av & _ & _ & Hr & _ & -> & _ & _).
  apply reconcile_Return_inv in Hr
    as (trl & h & _ & _ & _ & Hteam & _ & Hdomain & _ & _ & _ & Hne & Hsub & _).
  simpl. repeat split; try done. by exists (r_team r).
Qed.

Lemma provisioned_descriptors_fit_witness :
  "203.0.113.7" = ip sampleContext
  ∧ ad_accessToken (pa_authentication sampleTeamArgs) = "access"
  ∧ ad_refreshToken (pa_authentication sampleTeamArgs) = "refresh"
  ∧ ad_expiresIn (pa_authentication sampleTeamArgs) = expires_in sampleParams
  ∧ ad_scopes (pa_authentication sampleTeamArgs)
    = split_on " " (OIDC_SCOPES sampleTeamEnv)
  ∧ pd_name (pa_authenticationProvider sampleTeamArgs) = config_id sampleTeamEnv
  ∧ td_name (pa_team sampleTeamArgs) = APP_NAME sampleTeamEnv
  ∧ parseEmail sampleTeamEnv (ud_email (pa_user sampleTeamArgs))
    = Return (td_domain (pa_team sampleTeamArgs))
  ∧ td_domain (pa_team sampleTeamArgs) ≠ ""
  ∧ td_subdomain (pa_team sampleTeamArgs)
    = slugifyDomain sampleTeamEnv (td_domain (pa_team sampleTeamArgs))
  ∧ ∃ tm, getTeamFromContext sampleTeamEnv sampleContext = Return tm
          ∧ td_teamId (pa_team sampleTeamArgs) = team_id <$> tm.
Proof.
  apply (provisioned_descriptors_fit sampleTeamEnv
           sampleEndpoints sampleContext "access" "refresh" sampleParams
           "203.0.113.7" sampleTeamArgs).
  vm_compute. tauto.
Defined.

(** ** Queries to the store *)

Lemma Forall_False_nil {A} (l : list A) : Forall (λ _, False) l → l = [].
Proof. destruct l as [| x l]; [done |]. by inversion 1. Qed.

Lemma bind_quiet_tail {A B} (m : M A) (k : A → M B) :
  (∀ a, fst (k a) = []) → fst (bind m k) = fst m.
Proof.
  intros Hk. destruct m as [tr [e | a]]; simpl; [done |].
  specialize (Hk a). destruct (k a) as [tr' r]; simpl in *. subst.
  by rewrite app_nil_r.
Qed.

Lemma bind_throw {A B} (e : Exn) (k : A → M B) : bind (throw e) k = throw e.
Proof. done. Qed.

Lemma bind_lift_Throw {A B} (e : Exn) (k : A → M B) :
  bind (lift (Throw e)) k = ([], Throw e).
Proof. done. Qed.

Lemma bind_call_Throw {A B} ev (e : Exn) (k : A → M B) :
  bind (call ev (Throw e)) k = ([ev], Throw e).
Proof. done. Qed.

Lemma resolveEmail_quiet profile token : fst (resolveEmail profile token) = [].
Proof. apply Forall_False_nil. unfold resolveEmail. trace_tac. Qed.

Lemma resolveName_quiet profile username : fst (resolveName profile username) = [].
Proof. apply Forall_False_nil. unfold resolveName. trace_tac. Qed.

Lemma resolveProfileId_quiet profile : fst (resolveProfileId profile) = [].
Proof. apply Forall_False_nil. unfold resolveProfileId. trace_tac. Qed.

Section Queries.
Variable E : Env.
Variable endpoints : OIDCEndpoints.
Variable context : Context.

(** The lookup asks nothing, the exact query, or the exact query and then
    the query for the team. *)
Lemma lookupProvider_queries tm domain :
  fst (lookupProvider E tm domain) = []
  ∨ ∃ t, tm = Some t
         ∧ (fst (lookupProvider E tm domain) = [EvFindOne (exactQuery t domain)]
            ∨ fst (lookupProvider E tm domain)
              = [EvFindOne (exactQuery t domain); EvFindOne (teamQuery t)]).
Proof.
  destruct tm as [t |]; [| by left]. right. exists t. split; [done |].
  unfold lookupProvider, call, bind, ret.
  destruct (findOne E (exactQuery t domain)) as [e | [p |]]; simpl; auto.
Qed.

(** The events of the reconciliation: none, the reading of the team, or the
    reading of the team followed by the queries of the lookup. *)
Lemma reconcile_events profile token :
  fst (reconcile E endpoints context profile token) = []
  ∨ fst (reconcile E endpoints context profile token) = [EvGetTeam]
  ∨ ∃ tm domain,
      getTeamFromContext E context = Return tm
      ∧ (∃ email, parseEmail E email = Return domain)
      ∧ fst (reconcile E endpoints context profile token)
        = EvGetTeam :: fst (lookupProvider E tm domain).
Proof.
  unfold reconcile.
  pose proof (resolveEmail_quiet profile token) as Hq.
  destruct (resolveEmail profile token) as [tr0 [e | email]]; simpl in Hq; subst tr0.
  { by left. }
  change (@pair (list Event) (Result JsVal) [] (Return email)) with (ret email).
  rewrite bind_ret.
  destruct (truthy email); cbn [negb];
    [| change (throw_if true email_missing) with (@throw unit email_missing);
       rewrite bind_throw; by left].
  change (throw_if false email_missing) with (ret tt). rewrite bind_ret.
  destruct (getTeamFromContext E context) as [e | tm] eqn:Hteam.
  { rewrite bind_call_Throw. right. by left. }
  rewrite bind_call. cbn [fst].
  destruct (getClientFromContext E context) as [e | client].
  { rewrite bind_lift_Throw. right. by left. }
  rewrite bind_lift.
  destruct (parseEmail E email) as [e | domain] eqn:Hdomain.
  { rewrite bind_lift_Throw. right. by left. }
  rewrite bind_lift. right. right. exists tm, domain.
  split; [done |]. split; [by exists email |]. f_equal.
  apply bind_quiet_tail. intros found.
  apply Forall_False_nil. trace_tac;
    first [ rewrite resolveName_quiet | rewrite resolveProfileId_quiet ];
    constructor.
Qed.
End Queries.

Lemma failed_request_events E endpoints context accessToken refreshToken params e :
  request E (userinfoMethod endpoints) (userInfoURL endpoints) accessToken = Throw e →
  callback E endpoints context accessToken refreshToken params
  = ([EvRequest (userinfoMethod endpoints) (userInfoURL endpoints) accessToken],
     DoneErr e).
Proof. intros Hreq. apply callback_prepare_failed. by apply prepare_not_fetched. Qed.

Section CallbackEvents.
Variable E : Env.
Variable endpoints : OIDCEndpoints.
Variable context : Context.
Variables accessToken refreshToken : string.
Variable params : Params.

Lemma describe_events profile token :
  ∃ logs,
    fst (describe E endpoints context accessToken refreshToken params profile token)
    = (fst (reconcile E endpoints context profile token) ++ logs)%list
    ∧ Forall (λ ev, is_log ev = true) logs.
Proof.
  unfold describe.
  destruct (reconcile E endpoints context profile token) as [trr [e | r]].
  - exists []. simpl. by rewrite app_nil_r.
  - rewrite (bind_Return _ _ _ _ eq_refl). cbn [fst].
    pose proof (filterAvatar_trace E profile) as Hlog.
    destruct (filterAvatar E profile) as [tra [e | av]]; simpl in *.
    + by exists tra.
    + exists tra. by rewrite app_nil_r.
Qed.

(** The events of the callback, in their order: the request, what the
    decoding logged, the events of the reconciliation, what the avatar
    filter logged, and the provisioning call. *)
Lemma callback_events :
  ∃ logs1 rec logs2 tail,
    fst (callback E endpoints context accessToken refreshToken params)
    = (EvRequest (userinfoMethod endpoints) (userInfoURL endpoints) accessToken
         :: logs1 ++ rec ++ logs2 ++ tail)%list
    ∧ Forall (λ ev, is_log ev = true) logs1
    ∧ Forall (λ ev, is_log ev = true) logs2
    ∧ Forall (λ ev, is_provision ev = true) tail
    ∧ (tail = [] ∨ ∃ args, tail = [EvProvision (ip context) args])
    ∧ (rec = [] ∨ ∃ profile token,
                    rec = fst (reconcile E endpoints context profile token)).
Proof.
  destruct (request E (userinfoMethod endpoints) (userInfoURL endpoints) accessToken)
    as [e | profile] eqn:Hreq.
  - rewrite (failed_request_events E endpoints context accessToken refreshToken params
               e Hreq). exists [], [], [], []. simpl.
    repeat split; auto.
  - destruct (decodeToken_returns E params) as (trd & token & Hdec & _).
    destruct (decodeToken_readable E params trd token Hdec) as [_ Hlog1].
    rewrite (callback_fetched E endpoints context accessToken refreshToken params
               profile trd token Hreq Hdec).
    destruct (describe_events profile token) as (logs2 & Hd & Hlog2).
    destruct (describe E endpoints context accessToken refreshToken params profile token)
      as [tr [e | [args client]]]; simpl in Hd; subst tr; cbn [fst].
    + exists trd, (fst (reconcile E endpoints context profile token)), logs2, [].
      rewrite app_nil_r. repeat split; eauto.
    + exists trd, (fst (reconcile E endpoints context profile token)), logs2,
        [EvProvision (ip context) args].
      rewrite <- !app_assoc. repeat split; eauto.
Qed.
End CallbackEvents.

Lemma filter_nothing {A} (f : A → bool) (P : A → Prop) (l : list A) :
  Forall P l → (∀ x, P x → f x = false) → List.filter f l = [].
Proof.
  intros Hl Hf. induction Hl as [| x l Hx _ IH]; [done |].
  simpl. by rewrite (Hf x Hx).
Qed.

Section StoreQueries.
Variable E : Env.
Variable endpoints : OIDCEndpoints.
Variable context : Context.

Lemma reconcile_findOne profile token query :
  In (EvFindOne query) (fst (reconcile E endpoints context profile token)) →
  ∃ t domain,
    getTeamFromContext E context = Return (Some t)
    ∧ (∃ email, parseEmail E email = Return domain)
    ∧ (query = exactQuery t domain ∨ query = teamQuery t).
Proof.
  destruct (reconcile_events E endpoints context profile token)
    as [-> | [-> | (tm & domain & Hteam & Hdomain & ->)]].
  - intros [].
  - intros [[=] | []].
  - intros [[=] | Hin].
    destruct (lookupProvider_queries E tm domain) as [Hq | (t & -> & [Hq | Hq])];
      rewrite Hq in Hin.
    + destruct Hin.
    + destruct Hin as [[= <-] | []]. exists t, domain. auto.
    + destruct Hin as [[= <-] | [[= <-] | []]]; exists t, domain; auto.
Qed.

Lemma reconcile_findOne_count profile token :
  (List.length (List.filter is_findOne
                  (fst (reconcile E endpoints context profile token))) ≤ 2)%nat.
Proof.
  destruct (reconcile_events E endpoints context profile token)
    as [-> | [-> | (tm & domain & _ & _ & ->)]]; simpl; try lia.
  destruct (lookupProvider_queries E tm domain) as [Hq | (t & -> & [Hq | Hq])];
    rewrite Hq; simpl; lia.
Qed.
End StoreQueries.

(** X13. The callback only reads the store, at most twice, and only for the
    team of the request: every query names the provider [oidc] and the id of
    the team that [getTeamFromContext] returned, and a query that restricts
    the providerId restricts it to a domain that [parseEmail] returned.  A
    request without a team causes no query. *)
Theorem store_queries_stay_in_team E endpoints context accessToken refreshToken params :
  (∀ query,
      In (EvFindOne query)
         (fst (callback E endpoints context accessToken refreshToken params)) →
      where_name query = "oidc"
      ∧ (∃ t, getTeamFromContext E context = Return (Some t)
              ∧ where_teamId query = team_id t)
      ∧ ∀ domain, where_providerId query = Some domain →
                  ∃ email, parseEmail E email = Return domain)
  ∧ (List.length
       (List.filter is_findOne
          (fst (callback E endpoints context accessToken refreshToken params)))
     ≤ 2)%nat.
Proof.
  destruct (callback_events E endpoints context accessToken refreshToken params)
    as (logs1 & rec & logs2 & tail & -> & Hlog1 & Hlog2 & Htail & _ & Hrec).
  split.
  - intros query Hin.
    assert (In (EvFindOne query) rec) as Hin'.
    { destruct Hin as [[=] | Hin].
      rewrite Forall_forall in Hlog1, Hlog2, Htail.
      apply in_app_or in Hin as [Hin | Hin];
        [apply list_elem_of_In in Hin; by specialize (Hlog1 _ Hin) |].
      apply in_app_or in Hin as [Hin | Hin]; [done |].
      apply in_app_or in Hin as [Hin | Hin]; apply list_elem_of_In in Hin;
        [by specialize (Hlog2 _ Hin) | by specialize (Htail _ Hin)]. }
    destruct Hrec as [-> | (profile & token & ->)]; [destruct Hin' |].
    apply reconcile_findOne in Hin' as (t & domain & Hteam & Hdomain & Hq).
    destruct Hq as [-> | ->]; simpl.
    + split; [done |]. split; [by exists t |]. by intros ? [= <-].
    + split; [done |]. split; [by exists t |]. by intros ? [=].
  - cbn [List.filter is_findOne]. rewrite !List.filter_app.
    rewrite (filter_nothing is_findOne _ logs1 Hlog1) by (by intros [] [=]).
    rewrite (filter_nothing is_findOne _ logs2 Hlog2) by (by intros [] [=]).
    rewrite (filter_nothing is_findOne _ tail Htail) by (by intros [] [=]).
    rewrite app_nil_r. simpl.
    destruct Hrec as [-> | (profile & token & ->)]; [simpl; lia |].
    apply reconcile_findOne_count.
Qed.

Lemma store_queries_stay_in_team_witness :
  where_name (exactQuery acmeTeam "acme.io") = "oidc"
  ∧ (∃ t, getTeamFromContext sampleTeamEnv sampleContext = Return (Some t)
          ∧ where_teamId (exactQuery acmeTeam "acme.io") = team_id t)
  ∧ ∀ domain, where_providerId (exactQuery acmeTeam "acme.io") = Some domain →
              ∃ email, parseEmail sampleTeamEnv email = Return domain.
Proof.
  apply (proj1 (store_queries_stay_in_team sampleTeamEnv
                  sampleEndpoints sampleContext "access" "refresh" sampleParams)).
  vm_compute. tauto.
Defined.

(** X14. The events of the callback come in one order: the userinfo request;
    what the decoding of the token logged; the reading of the team; the
    queries to the store, which are never made unless the team was read;
    what the avatar filter logged; and last, at most once, the call of the
    provisioner with the ip of the request. *)
Theorem callback_event_order E endpoints context accessToken refreshToken params :
  ∃ logs1 teamRead finds logs2 tail,
    fst (callback E endpoints context accessToken refreshToken params)
    = (EvRequest (userinfoMethod endpoints) (userInfoURL endpoints) accessToken
         :: logs1 ++ teamRead ++ finds ++ logs2 ++ tail)%list
    ∧ Forall (λ ev, is_log ev = true) logs1
    ∧ (teamRead = [] ∨ teamRead = [EvGetTeam])
    ∧ Forall (λ ev, is_findOne ev = true) finds
    ∧ (teamRead = [] → finds = [])
    ∧ Forall (λ ev, is_log ev = true) logs2
    ∧ (tail = [] ∨ ∃ args, tail = [EvProvision (ip context) args]).
Proof.
  destruct (callback_events E endpoints context accessToken refreshToken params)
    as (logs1 & rec & logs2 & tail & -> & Hlog1 & Hlog2 & _ & Htail & Hrec).
  assert (∃ teamRead finds,
             rec = (teamRead ++ finds)%list
             ∧ (teamRead = [] ∨ teamRead = [EvGetTeam])
             ∧ Forall (λ ev, is_findOne ev = true) finds
             ∧ (teamRead = [] → finds = [])) as (teamRead & finds & -> & Ht & Hf & Hnone).
  { destruct Hrec as [-> | (profile & token & ->)]; [by exists [], []; auto |].
    destruct (reconcile_events E endpoints context profile token)
      as [-> | [-> | (tm & domain & _ & _ & ->)]].
    - exists [], []. auto.
    - exists [EvGetTeam], []. auto.
    - exists [EvGetTeam], (fst (lookupProvider E tm domain)).
      split; [done |]. split; [by right |]. split; [| done].
      destruct (lookupProvider_queries E tm domain) as [Hq | (t & -> & [Hq | Hq])];
        rewrite Hq; by repeat constructor. }
  exists logs1, teamRead, finds, logs2, tail.
  rewrite <- !app_assoc. repeat split; auto.
Qed.

(** ** The decoded token *)

(** X15. Whatever the decoder does, the token that the callback goes on with
    is a truthy value of type object, so that reading a member of it never
    throws, and at most one line was logged.  A payload that is a truthy
    object is taken as it is, and nothing is logged. *)
Theorem decoded_token_is_readable E params :
  ∃ tr token,
    decodeToken E params = (tr, Return token)
    ∧ truthy token = true
    ∧ typeof token = "object"
    ∧ (∀ k, prop token k = ([], Return (member token k)))
    ∧ (tr = [] ∨ ∃ level message, tr = [EvLog level message])
    ∧ (∀ d, JWT_decode E (id_token params) = Return d →
            truthy d = true → typeof d = "object" → token = d ∧ tr = []).
Proof.
  unfold decodeToken, lift.
  destruct (JWT_decode E (id_token params)) as [e | d]; simpl.
  - eexists _, (JObj ∅). split; [reflexivity |].
    split; [done |]. split; [done |]. split; [done |].
    split; [right; by eexists _, _ |]. by intros d [=].
  - destruct (truthy d) eqn:Htruthy; simpl.
    + destruct (String.eqb (typeof d) "object") eqn:Htype; simpl.
      * exists [], d. split; [reflexivity |]. apply String.eqb_eq in Htype.
        split; [done |]. split; [done |].
        split; [intros k; apply prop_member; by destruct d |].
        split; [by left |]. by intros d' [= <-].
      * eexists _, (JObj ∅). split; [reflexivity |].
        split; [done |]. split; [done |]. split; [done |].
        split; [right; by eexists _, _ |].
        intros d' [= <-] _ Hobj. rewrite Hobj in Htype. discriminate.
    + eexists _, (JObj ∅). split; [reflexivity |].
      split; [done |]. split; [done |]. split; [done |].
      split; [right; by eexists _, _ |].
      intros d' [= <-] Ht. congruence.
Qed.

Lemma decoded_token_is_readable_witness :
  ∃ tr token,
    decodeToken (sampleEnv profileSubOnly (Return tokenAdfs) None []) sampleParams
    = (tr, Return token)
    ∧ token = tokenAdfs ∧ tr = [].
Proof.
  destruct (decoded_token_is_readable
              (sampleEnv profileSubOnly (Return tokenAdfs) None []) sampleParams)
    as (tr & token & Hdec & _ & _ & _ & _ & Hsame).
  exists tr, token. split; [exact Hdec |].
  apply (Hsame tokenAdfs); reflexivity.
Defined.

(** ** The scopes *)

Lemma split_on_nonempty sep s : split_on sep s ≠ [].
Proof.
  destruct s as [| c rest]; simpl; [done |].
  destruct (Ascii.eqb c sep); [done |]. by destruct (split_on sep rest).
Qed.

Lemma split_on_join sep s : join (String sep EmptyString) (split_on sep s) = s.
Proof.
  induction s as [| c rest IH]; simpl; [done |].
  pose proof (split_on_nonempty sep rest) as Hne.
  destruct (Ascii.eqb_spec c sep) as [-> | Hc].
  - destruct (split_on sep rest) as [| w ws]; [done |].
    change (join (String sep "") ("" :: w :: ws))
      with (String sep (join (String sep "") (w :: ws))).
    by rewrite IH.
  - destruct (split_on sep rest) as [| w ws]; [done |].
    destruct ws as [| w' ws]; simpl in *; by rewrite <- IH.
Qed.

Lemma split_on_lacks sep s : Forall (λ w, lacks sep w = true) (split_on sep s).
Proof.
  induction s as [| c rest IH]; simpl; [by repeat constructor |].
  destruct (Ascii.eqb c sep) eqn:Hc; [by constructor |].
  destruct (split_on sep rest) as [| w ws]; simpl.
  - repeat constructor. simpl. by rewrite Hc.
  - inversion IH as [| ? ? Hw Hws]; subst. constructor; [| done].
    simpl. by rewrite Hc, Hw.
Qed.

(** X16. The scopes handed to the provisioner are the configured scope
    string cut at its spaces: joined by spaces they give the configured
    string back, none of them holds a space, and there is always at least
    one, also when nothing is configured. *)
Theorem scopes_rejoin E :
  join " " (scopes E) = OIDC_SCOPES E
  ∧ Forall (λ w, lacks " " w = true) (scopes E)
  ∧ scopes E ≠ [].
Proof.
  unfold scopes. split; [apply split_on_join |].
  split; [apply split_on_lacks | apply split_on_nonempty].
Qed.

(** ** The errors of the callback *)

Tactic Notation "inv_throw" hyp(H) "as" ident(a) ident(Ha) :=
  let tr1 := fresh "tr" in
  let tr2 := fresh "tr" in
  let Heq := fresh "Htr" in
  apply bind_Throw_inv in H as [H | (tr1 & a & tr2 & Ha & H & Heq)].

Section Errors.
Variable E : Env.
Variable endpoints : OIDCEndpoints.
Variable context : Context.
Variables accessToken refreshToken : string.
Variable params : Params.

Lemma lookupProvider_Throw_inv tm domain tr e :
  lookupProvider E tm domain = (tr, Throw e) → ∃ query, findOne E query = Throw e.
Proof.
  destruct tm as [t |]; [| discriminate]. unfold lookupProvider, call, bind, ret.
  destruct (findOne E (exactQuery t domain)) as [e' | [p |]] eqn:Hexact; simpl.
  - intros [= _ <-]. eauto.
  - discriminate.
  - destruct (findOne E (teamQuery t)) as [e' | found] eqn:Hteam; simpl;
      [| discriminate].
    intros [= _ <-]. eauto.
Qed.

Lemma resolveEmail_Throw_inv profile token tr e :
  resolveEmail profile token = (tr, Throw e) →
  nullish token = false →
  nullish profile = true ∧ ∃ msg, e = TypeError msg.
Proof.
  unfold resolveEmail. intros H Ht.
  inv_throw H as pe Hpe.
  { apply prop_Throw_inv in H as (Hp & _ & Hmsg). done. }
  inv_throw H as e0 He0.
  - unfold coalesce in H. destruct (nullish pe); [| discriminate].
    apply prop_Throw_inv in H as (Hn & _). congruence.
  - unfold coalesce in H. destruct (nullish e0); discriminate.
Qed.

Lemma resolveName_Throw_inv profile username tr e :
  resolveName profile username = (tr, Throw e) →
  nullish profile = true ∧ ∃ msg, e = TypeError msg.
Proof.
  unfold resolveName. intros H. inv_throw H as pn Hpn.
  { apply prop_Throw_inv in H as (Hp & _ & Hmsg). done. }
  destruct (truthy pn); [discriminate |]. destruct (truthy username); [discriminate |].
  apply prop_Throw_inv in H as (Hp & _ & Hmsg). done.
Qed.

Lemma resolveProfileId_Throw_inv profile tr e :
  resolveProfileId profile = (tr, Throw e) →
  nullish profile = true ∧ ∃ msg, e = TypeError msg.
Proof.
  unfold resolveProfileId. intros H. inv_throw H as ps Hps.
  { apply prop_Throw_inv in H as (Hp & _ & Hmsg). done. }
  destruct (truthy ps); apply prop_Throw_inv in H as (Hp & _ & Hmsg); done.
Qed.

(** Why a reconciliation fails. *)
Lemma reconcile_Throw_inv profile token tr e :
  reconcile E endpoints context profile token = (tr, Throw e) →
  nullish token = false →
  e = email_missing
  ∨ e = OIDCMalformedUserInfoError
  ∨ e = name_missing (OIDC_USERNAME_CLAIM E) (userInfoURL endpoints)
  ∨ e = id_missing (userInfoURL endpoints)
  ∨ (nullish profile = true ∧ ∃ msg, e = TypeError msg)
  ∨ getTeamFromContext E context = Throw e
  ∨ getClientFromContext E context = Throw e
  ∨ (∃ email, parseEmail E email = Throw e)
  ∨ (∃ query, findOne E query = Throw e)
  ∨ URL_hostname E (authorizationURL endpoints) = Throw e.
Proof.
  unfold reconcile. intros H Ht.
  inv_throw H as email Hemail.
  { apply resolveEmail_Throw_inv in H; [| done]. tauto. }
  inv_throw H as u1 Hu1.
  { apply throw_if_Throw_inv in H as (_ & _ & ->). tauto. }
  inv_throw H as tm Hteam.
  { injection H as _ H. tauto. }
  inv_throw H as client Hclient.
  { injection H as _ H. tauto. }
  inv_throw H as domain Hdomain.
  { injection H as _ H. do 7 right. left. by exists email. }
  inv_throw H as found Hfound.
  { apply lookupProvider_Throw_inv in H. tauto. }
  inv_throw H as h Hh.
  { injection H as _ H. tauto. }
  inv_throw H as u2 Hu2.
  { apply throw_if_Throw_inv in H as (_ & _ & ->). tauto. }
  inv_throw H as nm Hnm.
  { apply resolveName_Throw_inv in H. tauto. }
  inv_throw H as profileId Hid.
  { apply resolveProfileId_Throw_inv in H. tauto. }
  inv_throw H as u3 Hu3.
  { apply throw_if_Throw_inv in H as (_ & _ & ->). tauto. }
  inv_throw H as u4 Hu4.
  { apply throw_if_Throw_inv in H as (_ & _ & ->). tauto. }
  discriminate.
Qed.

Lemma filterAvatar_Throw_inv profile tr e :
  filterAvatar E profile = (tr, Throw e) →
  (nullish profile = true ∧ ∃ msg, e = TypeError msg)
  ∨ ∃ picture, isBase64Url E picture = Throw e.
Proof.
  unfold filterAvatar. intros H. inv_throw H as picture Hpic.
  { apply prop_Throw_inv in H as (Hp & _ & Hmsg). by left. }
  inv_throw H as isData Hdata.
  - destruct (truthy picture); [| discriminate]. injection H as _ H.
    right. by exists picture.
  - destruct isData; [| discriminate]. inv_throw H as u Hu; discriminate.
Qed.
End Errors.

(** X17. The errors the callback can hand to [done] are: the three
    authentication errors about e-mail, name and user id; the error about a
    malformed e-mail; a [TypeError] when the userinfo response is [null];
    and what one of its collaborators threw, the transport, the team and
    client helpers, [parseEmail], the store, the URL constructor,
    [isBase64Url] or the provisioner.  The decoder is not among them. *)
Theorem callback_errors E endpoints context accessToken refreshToken params e :
  snd (callback E endpoints context accessToken refreshToken params) = DoneErr e →
  e = email_missing
  ∨ e = OIDCMalformedUserInfoError
  ∨ e = name_missing (OIDC_USERNAME_CLAIM E) (userInfoURL endpoints)
  ∨ e = id_missing (userInfoURL endpoints)
  ∨ (∃ msg profile,
        e = TypeError msg
        ∧ request E (userinfoMethod endpoints) (userInfoURL endpoints) accessToken
          = Return profile
        ∧ nullish profile = true)
  ∨ thrown_by_collaborator E endpoints context accessToken e.
Proof.
  unfold thrown_by_collaborator.
  destruct (request E (userinfoMethod endpoints) (userInfoURL endpoints) accessToken)
    as [e' | profile] eqn:Hreq.
  { rewrite (failed_request_events E endpoints context accessToken refreshToken params
               e' Hreq). simpl. intros [= <-]. tauto. }
  destruct (decodeToken_returns E params) as (trd & token & Hdec & Ht).
  rewrite (callback_fetched E endpoints context accessToken refreshToken params
             profile trd token Hreq Hdec).
  destruct (describe E endpoints context accessToken refreshToken params profile token)
    as [tr [e' | [args client]]] eqn:Hd; simpl.
  - intros [= <-]. unfold describe in Hd.
    inv_throw Hd as r Hr.
    + apply reconcile_Throw_inv in Hd; [| done].
      destruct Hd as [? | [? | [? | [? | [[Hp [msg ->]] | Hd]]]]]; try tauto.
      do 4 right. left. by exists msg, profile.
    + inv_throw Hd as av Hav; [| discriminate].
      apply filterAvatar_Throw_inv in Hd as [[Hp [msg ->]] | Hd].
      * do 4 right. left. by exists msg, profile.
      * tauto.
  - destruct (accountProvisioner E (ip context) args) as [e' | result] eqn:Hprov;
      [| discriminate].
    intros [= <-]. do 5 right. do 7 right. by exists args.
Qed.

Lemma callback_errors_witness :
  snd (callback sampleTeamEnv brokenEndpoints sampleContext
         "access" "refresh" sampleParams)
  = DoneErr (TypeError "Invalid URL")
  ∧ (TypeError "Invalid URL" = email_missing
     ∨ TypeError "Invalid URL" = OIDCMalformedUserInfoError
     ∨ TypeError "Invalid URL"
       = name_missing (OIDC_USERNAME_CLAIM sampleTeamEnv) (userInfoURL brokenEndpoints)
     ∨ TypeError "Invalid URL" = id_missing (userInfoURL brokenEndpoints)
     ∨ (∃ msg profile,
           TypeError "Invalid URL" = TypeError msg
           ∧ request sampleTeamEnv (userinfoMethod brokenEndpoints)
               (userInfoURL brokenEndpoints) "access"
             = Return profile
           ∧ nullish profile = true)
     ∨ thrown_by_collaborator sampleTeamEnv brokenEndpoints sampleContext "access"
         (TypeError "Invalid URL")).
Proof.
  split; [reflexivity |].
  apply (callback_errors sampleTeamEnv brokenEndpoints sampleContext
           "access" "refresh" sampleParams).
  reflexivity.
Defined.

(** ** The lookup over a table *)

(** X18. When the store answers a query with the first row that agrees with
    every member of the query, the lookup prefers the provider of the e-mail
    domain wherever it stands in the table: if the team has an OIDC row whose
    providerId is the domain, the lookup returns such a row after one query;
    if it has OIDC rows but none for the domain, it returns one of them
    after two. *)
Theorem lookup_prefers_domain_row E rows (t : Team) (domain : string)
    (row : AuthenticationProvider) :
  (∀ query, findOne E query = table_findOne rows query) →
  In row rows →
  name row = "oidc" →
  teamId row = team_id t →
  ∃ p,
    In p rows ∧ name p = "oidc" ∧ teamId p = team_id t
    ∧ (if existsb (matches (exactQuery t domain)) rows
       then providerId p = domain
            ∧ lookupProvider E (Some t) domain
              = ([EvFindOne (exactQuery t domain)], Return (Some p))
       else lookupProvider E (Some t) domain
            = ([EvFindOne (exactQuery t domain); EvFindOne (teamQuery t)],
               Return (Some p))).
Proof.
  intros Htable Hin Hname Hteam.
  unfold lookupProvider, call, bind, ret. rewrite !Htable. unfold table_findOne.
  destruct (List.find (matches (exactQuery t domain)) rows) as [p |] eqn:Hexact.
  - pose proof (find_some _ _ Hexact) as [Hp Hm].
    exists p. pose proof Hm as Hm'. apply matches_exactQuery in Hm' as (? & ? & ?).
    repeat split; try done.
    assert (existsb (matches (exactQuery t domain)) rows = true) as ->
      by (apply existsb_exists; by exists p).
    done.
  - destruct (List.find (matches (teamQuery t)) rows) as [p |] eqn:Hany.
    + pose proof (find_some _ _ Hany) as [Hp Hm].
      exists p. apply matches_teamQuery in Hm as (? & ?).
      repeat split; try done.
      destruct (existsb (matches (exactQuery t domain)) rows) eqn:Hex; [| done].
      apply existsb_exists in Hex as (q & Hq & Hmq).
      pose proof (find_none _ _ Hexact q Hq). congruence.
    + pose proof (find_none _ _ Hany row Hin) as Hno.
      assert (matches (teamQuery t) row = true) by (by apply matches_teamQuery).
      congruence.
Qed.

Lemma lookup_prefers_domain_row_witness :
  ∃ p,
    In p [legacyProvider; acmeProvider]
    ∧ name p = "oidc" ∧ teamId p = team_id acmeTeam
    ∧ providerId p = "acme.io"
    ∧ lookupProvider
        (sampleEnv profileFull (Return tokenEmail) (Some acmeTeam)
           [legacyProvider; acmeProvider])
        (Some acmeTeam) "acme.io"
      = ([EvFindOne (exactQuery acmeTeam "acme.io")], Return (Some p)).
Proof.
  apply (lookup_prefers_domain_row
           (sampleEnv profileFull (Return tokenEmail) (Some acmeTeam)
              [legacyProvider; acmeProvider])
           [legacyProvider; acmeProvider] acmeTeam "acme.io" legacyProvider);
    first [reflexivity | by left].
Defined.

(** ** The source of the e-mail *)

(** C2. The e-mail of the identity is the e-mail of the userinfo profile when
    the profile has one, and otherwise the e-mail of the decoded token: this
    is the value the e-mail fallback returns, the value a successful run
    hands to the provisioner, and, when it is truthy and the steps after it
    succeed, the provisioner is called with it.  When neither source has an
    e-mail, the callback ends with the error that says the e-mail is
    missing, having sent the request and decoded the token and nothing more:
    the provisioner is not called. *)
Theorem C2_email_source E endpoints context accessToken refreshToken params
    profile trd token :
  request E (userinfoMethod endpoints) (userInfoURL endpoints) accessToken
  = Return profile →
  nullish profile = false →
  decodeToken E params = (trd, Return token) →
  let pe := member profile "email" in
  let te := member token "email" in
  let email := if nullish pe then te else pe in
  let username := resolveUsername E profile token in
  resolveEmail profile token = ([], Return (if nullish email then JNull else email))
  ∧ (if nullish pe && nullish te
     then callback E endpoints context accessToken refreshToken params
          = (EvRequest (userinfoMethod endpoints) (userInfoURL endpoints) accessToken
               :: trd,
             DoneErr email_missing)
          ∧ Forall (λ ev, is_provision ev = false) trd
     else ∀ tr args client,
         prepare E endpoints context accessToken refreshToken params
         = (tr, Return (args, client)) →
         ud_email (pa_user args) = email)
  ∧ (∀ tm client domain trl found h tra avatarUrl,
        truthy email = true →
        getTeamFromContext E context = Return tm →
        getClientFromContext E context = Return client →
        parseEmail E email = Return domain →
        domain ≠ "" →
        lookupProvider E tm domain = (trl, Return found) →
        URL_hostname E (authorizationURL endpoints) = Return h →
        truthy (member profile "name") || truthy username
          || truthy (member profile "username") = true →
        truthy (member profile "sub") || truthy (member profile "id") = true →
        filterAvatar E profile = (tra, Return avatarUrl) →
        ∃ args,
          fst (callback E endpoints context accessToken refreshToken params)
          = (EvRequest (userinfoMethod endpoints) (userInfoURL endpoints) accessToken
               :: trd ++ (EvGetTeam :: trl) ++ tra
               ++ [EvProvision (ip context) args])%list
          ∧ ud_email (pa_user args) = email).
Proof.
  intros Hreq Hp Hdec pe te email username.
  destruct (decodeToken_readable E params trd token Hdec) as [Ht Hlog].
  pose proof (resolveEmail_value profile token Hp Ht) as He. cbv zeta in He.
  fold pe te email in He.
  split; [exact He |]. split.
  - destruct (nullish pe && nullish te) eqn:Hboth.
    + apply andb_true_iff in Hboth as [Hpe Hte].
      assert (nullish email = true) as Hn by (unfold email; by rewrite Hpe).
      rewrite Hn in He.
      split.
      * by apply (callback_email_falsy E endpoints context accessToken refreshToken
                    params profile trd token JNull).
      * eapply Forall_impl; [exact Hlog |]. by intros [] [=].
    + intros tr args client H.
      apply prepare_Return_inv in H
        as (profile' & trd' & token' & trr & r & tra & av & Hreq' & Hdec' & Hr & _
            & -> & _).
      rewrite Hreq in Hreq'. injection Hreq' as <-.
      rewrite Hdec in Hdec'. injection Hdec' as <- <-.
      apply reconcile_Return_inv in Hr as (trl & h & _ & He' & Htruthy & _).
      rewrite He in He'. injection He' as He'. simpl.
      destruct (nullish email) eqn:Hn; [| done].
      rewrite <- He' in Htruthy. discriminate.
  - intros tm client domain trl found h tra avatarUrl
      Hemail Hteam Hclient Hdomain Hne Hlookup Hhost Hname Hsub Hav.
    pose proof (reconcile_run E endpoints context profile token tm client domain trl
                  found h Hp Ht Hemail Hteam Hclient Hdomain Hlookup Hhost) as Hrun.
    cbv zeta in Hrun. fold pe te email username in Hrun.
    apply String.eqb_neq in Hne. rewrite Hne in Hrun.
    assert (truthy (if truthy (member profile "name") then member profile "name"
                    else if truthy username then username
                    else member profile "username") = true) as Hnm.
    { destruct (truthy (member profile "name")) eqn:Hn; [done |].
      destruct (truthy username) eqn:Hu; [done |]. by rewrite !orb_false_l in Hname. }
    assert (truthy (if truthy (member profile "sub") then member profile "sub"
                    else member profile "id") = true) as Hid.
    { destruct (truthy (member profile "sub")) eqn:Hs; [done |].
      by rewrite orb_false_l in Hsub. }
    rewrite Hnm, Hid in Hrun. simpl in Hrun.
    rewrite (callback_fetched E endpoints context accessToken refreshToken params
               profile trd token Hreq Hdec).
    unfold describe. rewrite (bind_Return _ _ _ _ Hrun).
    rewrite (bind_Return _ _ _ _ Hav). simpl.
    match type of Hrun with
    | _ = (_, Return ?r) =>
        exists (provisionArgs E accessToken refreshToken params r avatarUrl)
    end.
    split; [| reflexivity]. by rewrite !app_nil_r, <- !app_assoc.
Qed.

Lemma C2_email_source_witness :
  (callback (sampleEnv profileNoEmail (Return tokenSubOnly) None [])
     sampleEndpoints sampleContext "access" "refresh" sampleParams
   = ([EvRequest GET "https://idp.example.com/userinfo" "access"],
      DoneErr email_missing))
  ∧ resolveEmail profileFull tokenSubOnly = ([], Return (JStr "user@acme.io"))
  ∧ (∃ args,
        fst (callback (sampleEnv profileFull (Return tokenSubOnly) None [])
               sampleEndpoints sampleContext "access" "refresh" sampleParams)
        = [EvRequest GET "https://idp.example.com/userinfo" "access"; EvGetTeam;
           EvProvision "203.0.113.7" args]
        ∧ ud_email (pa_user args) = JStr "user@acme.io")
  ∧ resolveEmail profileSubOnly tokenAdfs = ([], Return (JStr "user@acme.io"))
  ∧ (∃ args,
        fst (callback (sampleEnv profileSubOnly (Return tokenAdfs) None [])
               sampleEndpoints sampleContext "access" "refresh" sampleParams)
        = [EvRequest GET "https://idp.example.com/userinfo" "access"; EvGetTeam;
           EvProvision "203.0.113.7" args]
        ∧ ud_email (pa_user args) = JStr "user@acme.io").
Proof.
  pose proof (C2_email_source (sampleEnv profileNoEmail (Return tokenSubOnly) None [])
                sampleEndpoints sampleContext "access" "refresh" sampleParams
                profileNoEmail [] tokenSubOnly eq_refl eq_refl eq_refl) as Hnone.
  pose proof (C2_email_source (sampleEnv profileFull (Return tokenSubOnly) None [])
                sampleEndpoints sampleContext "access" "refresh" sampleParams
                profileFull [] tokenSubOnly eq_refl eq_refl eq_refl) as Hprofile.
  pose proof (C2_email_source (sampleEnv profileSubOnly (Return tokenAdfs) None [])
                sampleEndpoints sampleContext "access" "refresh" sampleParams
                profileSubOnly [] tokenAdfs eq_refl eq_refl eq_refl) as Htoken.
  cbv zeta in Hnone, Hprofile, Htoken.
  destruct Hnone as (_ & [Hnone _] & _).
  destruct Hprofile as (Hp1 & _ & Hp2).
  destruct Htoken as (Ht1 & _ & Ht2).
  split; [exact Hnone |]. split; [exact Hp1 |].
  split; [apply (Hp2 None "web" "acme.io" [] None "idp.example.com" [] JUndefined);
          first [reflexivity | discriminate] |].
  split; [exact Ht1 |].
  apply (Ht2 None "web" "acme.io" [] None "idp.example.com" [] JUndefined);
    first [reflexivity | discriminate].
Defined.

(** A userinfo body that is a JSON string: its [sub] is the method every
    string inherits, which is truthy, so with a token that supplies e-mail
    and username the callback provisions, the method being the user id. *)
Example string_profile_has_sub :
  member (JStr "abc") "sub" = JFun "sub"
  ∧ ∃ args,
      fst (callback (sampleEnv (JStr "abc") (Return tokenAdfs) None [])
             sampleEndpoints sampleContext "access" "refresh" sampleParams)
      = [EvRequest GET "https://idp.example.com/userinfo" "access"; EvGetTeam;
         EvProvision "203.0.113.7" args]
      ∧ ad_providerId (pa_authentication args) = JFun "sub"
      ∧ ud_name (pa_user args) = JStr "jdoe".
Proof. split; [reflexivity |]. by eexists. Qed.
